(** * Stryktipset prediction engine: a shallow embedding and its properties

    The development follows [prediction_engine.py] (class
    [StryktipsetPredictor]), [data_processor.py] (class
    [StryktipsetDataProcessor], whose round-number function the predictor
    duplicates) and the client construction of [supabase_client.py].

    Modelling conventions.
    - Python floats are idealised as exact rationals ([Q]): no overflow,
      no underflow, no representation error, and [round(x, 3)] is
      rounding to the nearest multiple of 1/1000, ties to even.  The code
      rounds the double it has computed, so at a rational tie, or a hair
      away from one, its third decimal can differ from the embedding's.
      Statements about returned numbers are therefore made for inputs in
      an ordinary range and up to a tolerance that holds on either side
      of a tie; statements about which function returns, raises or picks
      what are made relative to the values the models return.
    - Python exceptions are values of [exn]; a function that may raise
      returns [result A].
    - A JSON object read through [dict.get] with known keys is a record of
      optional fields; the odds block, whose emptiness the code tests, is a
      [gmap string value].
    - [print] is an event appended to a log. *)

From Stdlib Require Import ZArith QArith Qround Qabs Lqa Lia List.
From stdpp Require Import gmap strings.

Local Open Scope Q_scope.

(** ** Python runtime: exceptions, numbers, rounding *)

Module Py.

Inductive exn : Type :=
| TypeError
| ZeroDivisionError
| AttributeError
| StoreError (code : Z).

Inductive result (A : Type) : Type :=
| Ok (a : A)
| Raise (e : exn).
Arguments Ok {A} a.
Arguments Raise {A} e.

Definition bind {A B} (r : result A) (k : A -> result B) : result B :=
  match r with
  | Ok a => k a
  | Raise e => Raise e
  end.

#[export] Instance result_ret : MRet result := @Ok.
#[export] Instance result_bind : MBind result :=
  fun A B k r => bind r k.

(** A [for] loop that appends one computed item per element and stops at
    the first exception. *)
Fixpoint for_each {A B} (f : A -> result B) (l : list A) : result (list B) :=
  match l with
  | [] => Ok []
  | x :: xs => y ← f x; ys ← for_each f xs; Ok (y :: ys)
  end.

(** [x < y] on numbers, as a boolean. *)
Definition ltb (x y : Q) : bool := negb (Qle_bool y x).

(** [x / y]: true division, raising on a zero divisor.  The quotient is
    exact: a double quotient that underflows to zero, overflows or is
    not a number has no counterpart here. *)
Definition div (x y : Q) : result Q :=
  if Qeq_bool y 0 then Raise ZeroDivisionError else Ok (x / y).

(** Two-argument [max(a, b)]: the first argument stays unless the second
    is strictly greater. *)
Definition max2 (a b : Q) : Q := if ltb a b then b else a.

(** Three-argument [min(a, b, c)]: the earliest minimal argument. *)
Definition min3 (a b c : Q) : Q :=
  let m := if ltb b a then b else a in
  if ltb c m then c else m.

(** Nearest integer, ties to even. *)
Definition round_half_even (x : Q) : Z :=
  let f := Qfloor x in
  match Qcompare (x - inject_Z f) (1 # 2) with
  | Lt => f
  | Gt => (f + 1)%Z
  | Eq => if Z.even f then f else (f + 1)%Z
  end.

(** [round(x, 3)], on the exact value of [x]: the nearest number with
    three decimals, in lowest terms.  It is within 0.0005 of [x], as the
    code's result is up to float error; which of two neighbours is taken
    at a tie is particular to the embedding. *)
Definition round3 (x : Q) : Q :=
  Qred (inject_Z (round_half_even (x * 1000)) / 1000).

(** [max(d, key=d.get)] over the items of a dict in insertion order: the
    running best is replaced only by a strictly greater key value. *)
Fixpoint max_by_from {K} (best : K * Q) (items : list (K * Q)) : K :=
  match items with
  | [] => fst best
  | it :: rest =>
      if ltb (snd best) (snd it) then max_by_from it rest
      else max_by_from best rest
  end.

Definition max_by {K} (first : K * Q) (rest : list (K * Q)) : K :=
  max_by_from first rest.

End Py.

Import Py.

(** ** NumPy: [np.average(a, weights=w)] on one-dimensional input *)

Module Np.

Fixpoint sum (l : list Q) : Q :=
  match l with
  | [] => 0
  | x :: xs => x + sum xs
  end.

Fixpoint multiply (a w : list Q) : list Q :=
  match a, w with
  | x :: a', y :: w' => x * y :: multiply a' w'
  | _, _ => []
  end.

(** With no axis given, differing shapes raise [TypeError]; a zero weight
    total raises [ZeroDivisionError]. *)
Definition average (a w : list Q) : result Q :=
  if negb (Nat.eqb (length a) (length w)) then Raise TypeError
  else
    let scl := sum w in
    if Qeq_bool scl 0 then Raise ZeroDivisionError
    else Ok (sum (multiply a w) / scl).

End Np.

(** ** [datetime]: proleptic Gregorian dates on a microsecond axis

    A [datetime] is built from its fields; arithmetic and comparison act
    on its position on the time axis, counted in microseconds from the
    midnight that starts ordinal day 0. *)

Module Datetime.

Record datetime : Type := {
  year : Z;
  month : Z;
  day : Z;
  hour : Z;
  minute : Z;
  second : Z;
  microsecond : Z
}.

Definition is_leap (y : Z) : bool :=
  (y mod 4 =? 0)%Z && (negb (y mod 100 =? 0)%Z || (y mod 400 =? 0)%Z).

Definition days_before_year (y : Z) : Z :=
  let y := (y - 1)%Z in
  (y * 365 + y / 4 - y / 100 + y / 400)%Z.

Definition days_in_month (y m : Z) : Z :=
  if (m =? 2)%Z then (if is_leap y then 29 else 28)%Z
  else if ((m =? 4) || (m =? 6) || (m =? 9) || (m =? 11))%Z then 30%Z
  else 31%Z.

(** Days of the year before the first of month [m]. *)
Definition days_before_month (y m : Z) : Z :=
  (nth (Z.to_nat m)
       [-1; 0; 31; 59; 90; 120; 151; 181; 212; 243; 273; 304; 334] 0
   + (if (2 <? m)%Z && is_leap y then 1 else 0))%Z.

(** 0001-01-01 is ordinal day 1. *)
Definition ymd2ord (y m d : Z) : Z :=
  (days_before_year y + days_before_month y m + d)%Z.

Definition valid (t : datetime) : Prop :=
  (1 <= year t <= 9999 /\ 1 <= month t <= 12 /\
   1 <= day t <= days_in_month (year t) (month t) /\
   0 <= hour t < 24 /\ 0 <= minute t < 60 /\ 0 <= second t < 60 /\
   0 <= microsecond t < 1000000)%Z.

Definition us_per_day : Z := 86400000000.

(** Microseconds into the day. *)
Definition time_of_day (t : datetime) : Z :=
  (((hour t * 60 + minute t) * 60 + second t) * 1000000 + microsecond t)%Z.

Definition toordinal (t : datetime) : Z :=
  ymd2ord (year t) (month t) (day t).

(** Position of [t] on the time axis. *)
Definition instant (t : datetime) : Z :=
  (toordinal t * us_per_day + time_of_day t)%Z.

(** [datetime(y, m, d)]: midnight of that date. *)
Definition midnight (y m d : Z) : Z := (ymd2ord y m d * us_per_day)%Z.

(** [t + timedelta(days=k)] *)
Definition plus_days (t k : Z) : Z := (t + k * us_per_day)%Z.

(** Ordinal day of a position, and [weekday()]: Monday is 0. *)
Definition ordinal_of (t : Z) : Z := (t / us_per_day)%Z.
Definition weekday (t : Z) : Z := ((ordinal_of t + 6) mod 7)%Z.

(** [(a - b).days]: a [timedelta] is normalised with a non-negative
    sub-day part, so its day count is the floor. *)
Definition delta_days (a b : Z) : Z := ((a - b) / us_per_day)%Z.

End Datetime.

(** ** The predictor *)

Module Predictor.

(** *** Data model

    A match row is a dict; the engine reads three of its keys.  A key read
    with [d.get(k, default)] has three states when the stored value may be
    null: missing (the default is used), null ([None] comes back) and
    present. *)

Inductive field (A : Type) : Type :=
| Absent
| Null
| Present (a : A).
Arguments Absent {A}.
Arguments Null {A}.
Arguments Present {A} a.

(** A value of the odds block: a price, a label or timestamp, or null. *)
Inductive value : Type :=
| VNum (q : Q)
| VStr (s : string)
| VNone.

(** [recent_form] is [None] when the key is missing or null: both make
    [calculate_form_score] take its neutral branch, as the empty list
    does. *)
Record TeamHistory : Type := {
  recent_form : option (list Q)
}.

(** [odds] is [None] when the key is missing or null: both are falsy. *)
Record Match : Type := {
  match_id : Z;
  home_team_history : field TeamHistory;
  away_team_history : field TeamHistory;
  odds : option (gmap string value)
}.

Record Prediction : Type := {
  home_prob : Q;
  draw_prob : Q;
  away_prob : Q;
  confidence : Q
}.

Record Combination : Type := {
  method : string;
  combination : list string;
  description : string;
  confidence_tier : string
}.

(** *** Form score *)

Definition form_weights : list Q := [1.0; 0.8; 0.6; 0.4; 0.2].

Definition calculate_form_score (recent_form : list Q) : result Q :=
  match recent_form with
  | [] => Ok 0.5
  | _ =>
      let weights := firstn (length recent_form) form_weights in
      Np.average recent_form weights
  end.

(** [match.get(key, {}).get('recent_form', [])] *)
Definition history_recent_form (h : field TeamHistory) : result (list Q) :=
  match h with
  | Absent => Ok []
  | Null => Raise AttributeError
  | Present th => Ok (default [] (recent_form th))
  end.

(** *** Form-based model

    The first two divisions are guarded by the test on [total_strength].
    The last three divide by [total]; they are written with [Py.div], and
    [form_based_shape] below shows that [total] is never zero on
    well-formed input. *)

Definition predict_match_form_based (m : Match) : result Prediction :=
  home_recent ← history_recent_form (home_team_history m);
  home_form ← calculate_form_score home_recent;
  away_recent ← history_recent_form (away_team_history m);
  away_form ← calculate_form_score away_recent;
  let home_advantage := 0.1 in
  let adjusted_home_form := home_form + home_advantage in
  let total_strength := adjusted_home_form + away_form in
  probs ←
    (if Qeq_bool total_strength 0 then Ok (0.45, 0.25, 0.30)
     else
       let home_prob := adjusted_home_form / total_strength * 0.7 + 0.15 in
       let away_prob := away_form / total_strength * 0.7 + 0.15 in
       let draw_prob := 1 - home_prob - away_prob in
       let draw_prob := Py.max2 0.1 draw_prob in
       let total := home_prob + draw_prob + away_prob in
       home_prob ← Py.div home_prob total;
       draw_prob ← Py.div draw_prob total;
       away_prob ← Py.div away_prob total;
       Ok (home_prob, draw_prob, away_prob));
  let '(home_prob, draw_prob, away_prob) := probs in
  Ok {| home_prob := Py.round3 home_prob;
        draw_prob := Py.round3 draw_prob;
        away_prob := Py.round3 away_prob;
        confidence := Py.round3 (Qabs (home_form - away_form)) |}.

(** *** Odds-based model *)

(** [odds.get(key, dflt)] *)
Definition odds_get (o : gmap string value) (key : string) (dflt : Q) : value :=
  default (VNum dflt) (o !! key).

(** [1 / v] *)
Definition inverse (v : value) : result Q :=
  match v with
  | VNum q => Py.div 1 q
  | VStr _ | VNone => Raise TypeError
  end.

(** The body of [predict_match_odds_based] after the fallback test. *)
Definition implied_probabilities (home_odds draw_odds away_odds : value)
  : result Prediction :=
  home_prob ← inverse home_odds;
  draw_prob ← inverse draw_odds;
  away_prob ← inverse away_odds;
  let total_prob := home_prob + draw_prob + away_prob in
  home_prob ← Py.div home_prob total_prob;
  draw_prob ← Py.div draw_prob total_prob;
  away_prob ← Py.div away_prob total_prob;
  Ok {| home_prob := Py.round3 home_prob;
        draw_prob := Py.round3 draw_prob;
        away_prob := Py.round3 away_prob;
        confidence :=
          Py.round3 (1 - Py.min3 home_prob draw_prob away_prob) |}.

(** [not odds]: a missing, null or empty block. *)
Definition odds_falsy (o : option (gmap string value)) : bool :=
  match o with
  | None => true
  | Some d => bool_decide (d = ∅)
  end.

Definition predict_match_odds_based (m : Match) : result Prediction :=
  if odds_falsy (odds m) then predict_match_form_based m
  else
    let o := default ∅ (odds m) in
    implied_probabilities
      (odds_get o "home_win" 2.0)
      (odds_get o "draw" 3.0)
      (odds_get o "away_win" 2.0).

(** *** Hybrid model *)

Definition predict_match_hybrid (m : Match) : result Prediction :=
  form_prediction ← predict_match_form_based m;
  odds_prediction ← predict_match_odds_based m;
  let home_prob :=
    0.6 * home_prob odds_prediction + 0.4 * home_prob form_prediction in
  let draw_prob :=
    0.6 * draw_prob odds_prediction + 0.4 * draw_prob form_prediction in
  let away_prob :=
    0.6 * away_prob odds_prediction + 0.4 * away_prob form_prediction in
  let confidence :=
    (confidence odds_prediction + confidence form_prediction) / 2 in
  Ok {| home_prob := Py.round3 home_prob;
        draw_prob := Py.round3 draw_prob;
        away_prob := Py.round3 away_prob;
        confidence := Py.round3 confidence |}.

(** *** Outcome selection *)

(** The tail of [get_match_prediction]: the dict [probs] is built in the
    order '1', 'X', '2' and [max] walks it in that order. *)
Definition most_likely (prediction : Prediction) : string :=
  Py.max_by ("1"%string, home_prob prediction)
            [("X"%string, draw_prob prediction);
             ("2"%string, away_prob prediction)].

Definition get_match_prediction (m : Match) (method : string)
  : result (string * Prediction) :=
  prediction ←
    (if String.eqb method "form_based" then predict_match_form_based m
     else if String.eqb method "odds_based" then predict_match_odds_based m
     else predict_match_hybrid m);
  Ok (most_likely prediction, prediction).

(** *** Combination generator

    The generator runs three loops over the matches; each appends one
    symbol per match.  The three loop bodies come first. *)

Definition hybrid_pick (m : Match) : result string :=
  pd ← get_match_prediction m "hybrid";
  Ok (fst pd).

Definition conservative_pick (m : Match) : result string :=
  pd ← get_match_prediction m "hybrid";
  let details := snd pd in
  Ok (if Py.ltb 0.25 (draw_prob details) then "X"%string
      else if Py.ltb (away_prob details) (home_prob details) then "1"%string
      else "2"%string).

Definition value_pick (m : Match) : result string :=
  form ← get_match_prediction m "form_based";
  odds ← get_match_prediction m "odds_based";
  let '(form_pred, form_details) := form in
  let '(odds_pred, odds_details) := odds in
  Ok (if negb (String.eqb form_pred odds_pred)
         && Py.ltb 0.3 (confidence form_details)
      then form_pred else odds_pred).

Definition generate_stryktipset_combinations (matches : list Match)
  : result (list Combination) :=
  hybrid_combo ← Py.for_each hybrid_pick matches;
  conservative_combo ← Py.for_each conservative_pick matches;
  value_combo ← Py.for_each value_pick matches;
  Ok [ {| method := "Hybrid Prediction";
          combination := hybrid_combo;
          description := "Most likely outcome for each match";
          confidence_tier := "Medium" |};
       {| method := "Conservative";
          combination := conservative_combo;
          description := "Safer picks favoring draws and home wins";
          confidence_tier := "High" |};
       {| method := "Value Betting";
          combination := value_combo;
          description := "Looking for odds vs form discrepancies";
          confidence_tier := "Low" |} ].

(** *** Round number *)

Definition get_current_round_number (now : Datetime.datetime) : Z :=
  let march_first := Datetime.midnight (Datetime.year now) 3 1 in
  let first_saturday :=
    Datetime.plus_days march_first
      ((5 - Datetime.weekday march_first) mod 7)%Z in
  if (Datetime.instant now <? first_saturday)%Z then 1%Z
  else
    let weeks_since_start :=
      (Datetime.delta_days (Datetime.instant now) first_saturday / 7)%Z in
    Z.min (weeks_since_start + 1) 35.

End Predictor.

(** ** The data processor's copy of the round number *)

Module DataProcessor.

Definition get_current_round_number (now : Datetime.datetime) : Z :=
  let march_first := Datetime.midnight (Datetime.year now) 3 1 in
  let first_saturday :=
    Datetime.plus_days march_first
      ((5 - Datetime.weekday march_first) mod 7)%Z in
  if (Datetime.instant now <? first_saturday)%Z then 1%Z
  else
    let weeks_since_start :=
      (Datetime.delta_days (Datetime.instant now) first_saturday / 7)%Z in
    Z.min (weeks_since_start + 1) 35.

End DataProcessor.

(** ** The prediction run against the external store *)

Module Engine.

Import Predictor.

(** A row written to the [predictions] table. *)
Record PredictionRecord : Type := {
  round_number : Z;
  rec_method : string;
  rec_combination : string;
  rec_description : string;
  rec_confidence : string;
  created_at : Datetime.datetime;
  prediction_order : Z
}.

(** The three requests the engine sends.  Each either raises or answers;
    a write answers with the new store state. *)
Class Supabase (db : Type) : Type := {
  (** [table('matches').select("*").order('match_id').execute().data] *)
  select_matches : db -> result (list Match);
  (** [table('predictions').delete().eq('round_number', r).execute()] *)
  delete_predictions : Z -> db -> result db;
  (** [table('predictions').insert(records).execute()], with its [.data] *)
  insert_predictions :
    list PredictionRecord -> db -> result (db * list PredictionRecord)
}.

(** Console output, one constructor per [print] of the engine. *)
Inductive event : Type :=
| StartingGeneration
| PredictionDate (now : Datetime.datetime)
| LoadingMatches
| LoadedMatches (n : nat)
| NoMatchesInDatabase
| ErrorLoadingMatches (e : exn)
| NoMatchesCannotGenerate
| GeneratingCombinations
| StoringPredictions
| StoredPredictions (n : nat)
| NoPredictionDataReturned
| ErrorStoringPredictions (e : exn)
| GeneratedPredictions (lines : list (string * string * string))
| GenerationCompleted
| ErrorDuringGeneration (e : exn).

Section Run.

Context {db : Type} `{Supabase db}.

(** Returns the lines printed and the matches. *)
Definition load_current_matches (s : db) : list event * list Match :=
  match select_matches s with
  | Ok data =>
      match data with
      | _ :: _ => ([LoadingMatches; LoadedMatches (length data)], data)
      | [] => ([LoadingMatches; NoMatchesInDatabase], [])
      end
  | Raise e => ([LoadingMatches; ErrorLoadingMatches e], [])
  end.

Fixpoint prediction_records (now : Datetime.datetime) (current_round : Z)
    (i : Z) (predictions : list Combination) : list PredictionRecord :=
  match predictions with
  | [] => []
  | prediction :: rest =>
      {| round_number := current_round;
         rec_method := method prediction;
         rec_combination := String.concat "" (combination prediction);
         rec_description := description prediction;
         rec_confidence := confidence_tier prediction;
         created_at := now;
         prediction_order := (i + 1)%Z |}
      :: prediction_records now current_round (i + 1) rest
  end.

(** Returns the lines printed, the store afterwards and the outcome. *)
Definition store_predictions (now : Datetime.datetime)
    (predictions : list Combination) (s : db)
  : list event * db * result unit :=
  let current_round := get_current_round_number now in
  match delete_predictions current_round s with
  | Raise e => ([StoringPredictions; ErrorStoringPredictions e], s, Raise e)
  | Ok s1 =>
      let records := prediction_records now current_round 0 predictions in
      match insert_predictions records s1 with
      | Raise e =>
          ([StoringPredictions; ErrorStoringPredictions e], s1, Raise e)
      | Ok (s2, data) =>
          ([StoringPredictions;
            match data with
            | _ :: _ => StoredPredictions (length data)
            | [] => NoPredictionDataReturned
            end], s2, Ok ())
      end
  end.

(** The result is [Ok None] for the bare [return], [Ok (Some predictions)]
    for [return predictions] and [Raise e] when the handler re-raises. *)
Definition run_prediction_engine (now : Datetime.datetime) (s : db)
  : list event * db * result (option (list Combination)) :=
  let start := [StartingGeneration; PredictionDate now] in
  let '(loading, matches) := load_current_matches s in
  match matches with
  | [] => (start ++ loading ++ [NoMatchesCannotGenerate], s, Ok None)
  | _ :: _ =>
      match generate_stryktipset_combinations matches with
      | Raise e =>
          (start ++ loading ++ [GeneratingCombinations; ErrorDuringGeneration e],
           s, Raise e)
      | Ok predictions =>
          match store_predictions now predictions s with
          | (storing, s', Raise e) =>
              (start ++ loading ++ [GeneratingCombinations] ++ storing
                 ++ [ErrorDuringGeneration e], s', Raise e)
          | (storing, s', Ok _) =>
              (start ++ loading ++ [GeneratingCombinations] ++ storing
                 ++ [GeneratedPredictions
                       (map (fun pred =>
                               (method pred,
                                String.concat "" (combination pred),
                                confidence_tier pred)) predictions);
                     GenerationCompleted],
               s', Ok (Some predictions))
          end
      end
  end.

End Run.

(** *** An in-memory store with injectable faults *)

Record MemDb : Type := {
  matches_rows : list Match;
  predictions_rows : list PredictionRecord;
  read_fault : option exn;
  write_fault : option exn
}.

#[export] Instance mem_supabase : Supabase MemDb := {
  select_matches s :=
    match read_fault s with
    | Some e => Raise e
    | None => Ok (matches_rows s)
    end;
  delete_predictions r s :=
    match write_fault s with
    | Some e => Raise e
    | None =>
        Ok {| matches_rows := matches_rows s;
              predictions_rows :=
                filter (fun p => round_number p <> r) (predictions_rows s);
              read_fault := read_fault s;
              write_fault := write_fault s |}
    end;
  insert_predictions records s :=
    match write_fault s with
    | Some e => Raise e
    | None =>
        Ok ({| matches_rows := matches_rows s;
               predictions_rows := predictions_rows s ++ records;
               read_fault := read_fault s;
               write_fault := write_fault s |}, records)
    end
}.

End Engine.

(** ** Client construction ([supabase_client.py])

    The environment is a map from variable names to strings;
    [create_client] belongs to the client library and is a parameter. *)

Module SupabaseClient.

Inductive error : Type :=
| ValueError (message : string)
| CreateError (code : Z).

(** [os.getenv(name)]: [None] when the variable is unset. *)
Definition getenv (environ : gmap string string) (name : string)
  : option string :=
  environ !! name.

(** [not v] for an optional string: unset or empty. *)
Definition falsy (v : option string) : bool :=
  match v with
  | None => true
  | Some s => bool_decide (s = ""%string)
  end.

Section Construction.

Context {Client : Type}.
Variable create_client : string -> string -> Client + error.

Record t : Type := {
  url : string;
  key : string;
  supabase : Client
}.

(** [SupabaseClient.__init__] *)
Definition init (environ : gmap string string) (use_service_key : bool)
  : t + error :=
  let url := getenv environ "SUPABASE_URL" in
  if falsy url then
    inr (ValueError "SUPABASE_URL environment variable is required")
  else
    let key :=
      if use_service_key then getenv environ "SUPABASE_SERVICE_KEY"
      else getenv environ "SUPABASE_ANON_KEY" in
    if falsy key then
      inr (ValueError
             (if use_service_key
              then "SUPABASE_SERVICE_KEY environment variable is required"
              else "SUPABASE_ANON_KEY environment variable is required"))
    else
      match create_client (default ""%string url) (default ""%string key) with
      | inl client =>
          inl {| url := default ""%string url;
                 key := default ""%string key;
                 supabase := client |}
      | inr e => inr e
      end.

Definition get_client (c : t) : Client := supabase c.

Definition get_supabase_client (environ : gmap string string)
    (use_service_key : bool) : Client + error :=
  match init environ use_service_key with
  | inl c => inl (get_client c)
  | inr e => inr e
  end.

Definition get_backend_client (environ : gmap string string)
  : Client + error :=
  get_supabase_client environ true.

Definition get_frontend_client (environ : gmap string string)
  : Client + error :=
  get_supabase_client environ false.

End Construction.

End SupabaseClient.

(** ** The weekly analysis ([data_processor.py])

    Rows are dicts that the analysis fills in place: first the match
    fields, then the odds block, then the two histories.  The time of the
    run is one [now]; [isoformat] belongs to [datetime] and is a
    parameter. *)

Module Assembler.

Import Predictor.

Record History : Type := {
  team : string;
  recent_form : list Q;
  goals_scored : list Z;
  goals_conceded : list Z;
  home_away : list string;
  opponents : list string
}.

Record Row : Type := {
  match_id : Z;
  home_team : string;
  away_team : string;
  league : string;
  match_date : string;
  round_number : Z;
  odds : option (gmap string value);
  home_team_history : option History;
  away_team_history : option History
}.

(** The three requests the analysis sends to the [matches] table. *)
Class MatchesTable (db : Type) : Type := {
  delete_matches : Z -> db -> result db;
  insert_matches : list Row -> db -> result (db * list Row)
}.

Inductive event : Type :=
| StartingAnalysis
| AnalysisDate (now : Datetime.datetime)
| FetchingMatches
| FoundMatches (n : nat)
| FetchingOdds
| OddsAdded
| FetchingHistory (team_name : string) (games_back : Z)
| StoringMatches
| StoredMatches (n : nat)
| NoDataReturned
| ErrorStoringMatches (e : exn)
| AnalysisCompleted
| ErrorDuringAnalysis (e : exn).

Definition fetch_current_matches (now : Datetime.datetime)
  : list event * list Row :=
  let sample_matches :=
    [ {| match_id := 1;
         home_team := "AIK";
         away_team := "Djurgården";
         league := "Allsvenskan";
         match_date := "2025-08-30T15:00:00";
         round_number := DataProcessor.get_current_round_number now;
         odds := None; home_team_history := None;
         away_team_history := None |};
      {| match_id := 2;
         home_team := "Malmö FF";
         away_team := "IFK Göteborg";
         league := "Allsvenskan";
         match_date := "2025-08-30T17:30:00";
         round_number := DataProcessor.get_current_round_number now;
         odds := None; home_team_history := None;
         away_team_history := None |} ] in
  ([FetchingMatches; FoundMatches (length sample_matches)], sample_matches).

Definition fetch_historical_data (team_name : string) (games_back : Z)
  : list event * History :=
  ([FetchingHistory team_name games_back],
   {| team := team_name;
      recent_form := [1; 1; 0; 1; 0];
      goals_scored := [2; 1; 0; 3; 1]%Z;
      goals_conceded := [0; 1; 0; 1; 2]%Z;
      home_away := ["H"; "A"; "H"; "A"; "H"]%string;
      opponents := ["Team A"; "Team B"; "Team C"; "Team D"; "Team E"]%string |}).

Section Analysis.

Variable isoformat : Datetime.datetime -> string.

Definition sample_odds_block (now : Datetime.datetime) : gmap string value :=
  {[ "home_win"%string := VNum 2.10;
     "draw"%string := VNum 3.40;
     "away_win"%string := VNum 3.20;
     "source"%string := VStr "sample_bookmaker";
     "last_updated"%string := VStr (isoformat now) ]}.

Definition with_odds (now : Datetime.datetime) (m : Row) : Row :=
  {| match_id := match_id m; home_team := home_team m;
     away_team := away_team m; league := league m;
     match_date := match_date m; round_number := round_number m;
     odds := Some (sample_odds_block now);
     home_team_history := home_team_history m;
     away_team_history := away_team_history m |}.

Definition fetch_betting_odds (now : Datetime.datetime) (matches : list Row)
  : list event * list Row :=
  ([FetchingOdds; OddsAdded], map (with_odds now) matches).

(** The body of the history loop of [run_weekly_analysis]; the default
    [games_back] is 10. *)
Definition with_histories (m : Row) : list event * Row :=
  let '(log_home, home) := fetch_historical_data (home_team m) 10 in
  let '(log_away, away) := fetch_historical_data (away_team m) 10 in
  (log_home ++ log_away,
   {| match_id := match_id m; home_team := home_team m;
      away_team := away_team m; league := league m;
      match_date := match_date m; round_number := round_number m;
      odds := odds m;
      home_team_history := Some home; away_team_history := Some away |}).

Fixpoint add_histories (matches : list Row) : list event * list Row :=
  match matches with
  | [] => ([], [])
  | m :: rest =>
      let '(log_m, m') := with_histories m in
      let '(log_rest, rest') := add_histories rest in
      (log_m ++ log_rest, m' :: rest')
  end.

Context {db : Type} `{MatchesTable db}.

Definition store_matches_data (now : Datetime.datetime)
    (matches_data : list Row) (s : db) : list event * db * result unit :=
  let current_round := DataProcessor.get_current_round_number now in
  match delete_matches current_round s with
  | Raise e => ([StoringMatches; ErrorStoringMatches e], s, Raise e)
  | Ok s1 =>
      match insert_matches matches_data s1 with
      | Raise e => ([StoringMatches; ErrorStoringMatches e], s1, Raise e)
      | Ok (s2, data) =>
          ([StoringMatches;
            match data with
            | _ :: _ => StoredMatches (length data)
            | [] => NoDataReturned
            end], s2, Ok ())
      end
  end.

Definition run_weekly_analysis (now : Datetime.datetime) (s : db)
  : list event * db * result (list Row) :=
  let start := [StartingAnalysis; AnalysisDate now] in
  let '(log_fetch, matches) := fetch_current_matches now in
  let '(log_odds, matches_with_odds) := fetch_betting_odds now matches in
  let '(log_history, matches_with_odds) := add_histories matches_with_odds in
  match store_matches_data now matches_with_odds s with
  | (storing, s', Raise e) =>
      (start ++ log_fetch ++ log_odds ++ log_history ++ storing
         ++ [ErrorDuringAnalysis e], s', Raise e)
  | (storing, s', Ok _) =>
      (start ++ log_fetch ++ log_odds ++ log_history ++ storing
         ++ [AnalysisCompleted], s', Ok matches_with_odds)
  end.

End Analysis.

(** *** An in-memory [matches] table with an injectable fault *)

Record MemTable : Type := {
  table_rows : list Row;
  table_fault : option exn
}.

#[export] Instance mem_matches_table : MatchesTable MemTable := {
  delete_matches r s :=
    match table_fault s with
    | Some e => Raise e
    | None =>
        Ok {| table_rows := filter (fun m => round_number m <> r) (table_rows s);
              table_fault := table_fault s |}
    end;
  insert_matches rows s :=
    match table_fault s with
    | Some e => Raise e
    | None =>
        Ok ({| table_rows := table_rows s ++ rows;
               table_fault := table_fault s |}, rows)
    end
}.

(** *** From a stored row to the predictor's input

    What the prediction engine reads of a row that the analysis wrote:
    the identifier, the recent form of the two histories and the odds
    block. *)
Definition engine_history (h : option History) : field TeamHistory :=
  match h with
  | None => Absent
  | Some h => Present {| Predictor.recent_form := Some (recent_form h) |}
  end.

Definition to_match (m : Row) : Match :=
  {| Predictor.match_id := match_id m;
     Predictor.home_team_history := engine_history (home_team_history m);
     Predictor.away_team_history := engine_history (away_team_history m);
     Predictor.odds := odds m |}.

End Assembler.

(** * Vocabulary of the statements *)

Import Predictor.

(** The season start of year [y]: March 1 moved forward by
    (5 - weekday) mod 7 days. *)
Definition season_start (y : Z) : Z :=
  let march_first := Datetime.midnight y 3 1 in
  Datetime.plus_days march_first ((5 - Datetime.weekday march_first) mod 7)%Z.

Definition in_unit (x : Q) : Prop := 0 <= x <= 1.

(** The weights in use: as many as there are games, at most five. *)
Definition weights_for (l : list Q) : list Q :=
  firstn (length l) form_weights.

(** A result code: loss, draw or win. *)
Definition result_code (x : Q) : Prop := x == 0 \/ x == 0.5 \/ x == 1.

(** ** Weighted average, from the specification

    The results are paired with the leading weights, the first weight on
    the most recent game; the score is the total of result times weight
    over the total of the weights used. *)
Definition weighted_average (l : list Q) : Q :=
  let pairs := combine l form_weights in
  fold_right (fun xw acc => fst xw * snd xw + acc) 0 pairs
  / fold_right (fun xw acc => snd xw + acc) 0 pairs.

(** ** Well-formed input *)

(** A history the form model accepts: at most five games, each result
    between 0 (loss) and 1 (win). *)
Definition history_ok (h : field TeamHistory) : Prop :=
  match h with
  | Absent => True
  | Null => False
  | Present th =>
      (length (default [] (recent_form th)) <= 5)%nat /\
      Forall in_unit (default [] (recent_form th))
  end.

Definition form_ok (m : Match) : Prop :=
  history_ok (home_team_history m) /\ history_ok (away_team_history m).

(** A price field that is missing or holds a positive number. *)
Definition price_ok (o : gmap string value) (key : string) : Prop :=
  match o !! key with
  | None => True
  | Some (VNum q) => 0 < q
  | Some _ => False
  end.

Definition prices_ok (o : gmap string value) : Prop :=
  price_ok o "home_win" /\ price_ok o "draw" /\ price_ok o "away_win".

(** What the odds model needs: good prices, or a good form input when it
    falls back. *)
Definition odds_ok (m : Match) : Prop :=
  if odds_falsy (odds m) then form_ok m
  else prices_ok (default ∅ (odds m)).

Definition probs_in_unit (p : Prediction) : Prop :=
  in_unit (home_prob p) /\ in_unit (draw_prob p) /\ in_unit (away_prob p).

Definition probs_sum (p : Prediction) : Q :=
  home_prob p + draw_prob p + away_prob p.

(** ** Combinations *)

(** The alphabet: home win, draw, away win. *)
Definition symbols : list string := ["1"; "X"; "2"]%string.

(** The probability a prediction gives to a symbol. *)
Definition prob_of (p : Prediction) (s : string) : Q :=
  if String.eqb s "1" then home_prob p
  else if String.eqb s "X" then draw_prob p
  else away_prob p.

Definition well_shaped (n : nat) (c : Combination) : Prop :=
  length (combination c) = n /\ Forall (fun s => In s symbols) (combination c).

(** The conservative choice for one match, case by case. *)
Definition conservative_rule (p : Prediction) (s : string) : Prop :=
  (0.25 < draw_prob p -> s = "X"%string) /\
  (draw_prob p <= 0.25 -> away_prob p < home_prob p -> s = "1"%string) /\
  (draw_prob p <= 0.25 -> home_prob p <= away_prob p -> s = "2"%string).

(** ** Hybrid blend, from the specification

    Each probability is 0.6 times the odds value plus 0.4 times the form
    value, the confidence is the mean of the two confidences, and all four
    are rounded to three decimals. *)
Definition hybrid_blend (odds_value form_value : Prediction) : Prediction :=
  {| home_prob :=
       Py.round3 (0.6 * home_prob odds_value + 0.4 * home_prob form_value);
     draw_prob :=
       Py.round3 (0.6 * draw_prob odds_value + 0.4 * draw_prob form_value);
     away_prob :=
       Py.round3 (0.6 * away_prob odds_value + 0.4 * away_prob form_value);
     confidence :=
       Py.round3 ((confidence odds_value + confidence form_value) / 2) |}.

(** ** Inputs in range, results up to rounding

    The embedding computes with exact rationals where the code computes
    with double-precision floats.  The statements about returned numbers
    are therefore made for inputs in an ordinary range, where a double
    neither overflows nor underflows, and compare decimals up to a margin
    that is far above the error of a float operation on such values and
    far below the third decimal. *)

Definition float_margin : Q := 1 # 1000000000.

(** A number written with three decimals. *)
Definition three_decimals (x : Q) : Prop :=
  exists k : Z, x == inject_Z k / 1000.

(** A history as the data processor writes it: at most five games, each
    coded 0 (loss), 0.5 (draw) or 1 (win). *)
Definition coded_history (h : field TeamHistory) : Prop :=
  match h with
  | Absent => True
  | Null => False
  | Present th =>
      (length (default [] (recent_form th)) <= 5)%nat /\
      Forall result_code (default [] (recent_form th))
  end.

Definition coded_form (m : Match) : Prop :=
  coded_history (home_team_history m) /\ coded_history (away_team_history m).

(** A price field that is missing or holds a number from 1 to 1000. *)
Definition listed_price (o : gmap string value) (key : string) : Prop :=
  match o !! key with
  | None => True
  | Some (VNum q) => 1 <= q <= 1000
  | Some _ => False
  end.

Definition listed_prices (o : gmap string value) : Prop :=
  listed_price o "home_win" /\ listed_price o "draw" /\
  listed_price o "away_win".

Definition usable_odds (m : Match) : Prop :=
  match odds m with
  | Some o => listed_prices o
  | None => True
  end.

(** A match in range: coded histories, listed prices. *)
Definition match_in_range (m : Match) : Prop := coded_form m /\ usable_odds m.

(** A prediction whose four numbers lie between 0 and 1. *)
Definition proper (p : Prediction) : Prop :=
  probs_in_unit p /\ in_unit (confidence p).

(** [h] is the blend of [o] and [f] rounded to three decimals: the
    three-decimal number less than half a thousandth away from it. *)
Definition blend_rounded (o f h : Q) : Prop :=
  three_decimals h /\ Qabs (h - (0.6 * o + 0.4 * f)) < 0.0005.

(** [h] is the mean of [o] and [f] rounded to three decimals: a
    three-decimal number at most half a thousandth away from it, up to
    the margin. *)
Definition mean_rounded (o f h : Q) : Prop :=
  three_decimals h /\ Qabs (h - (o + f) / 2) <= 0.0005 + float_margin.

(** The price the odds model reads under [key]. *)
Definition price_of (o : gmap string value) (key : string) (dflt : Q) : Q :=
  match o !! key with
  | Some (VNum q) => q
  | _ => dflt
  end.

(** The value-betting choice from the two single-model predictions. *)
Definition value_rule (f o : Prediction) (s : string) : Prop :=
  (most_likely f <> most_likely o -> 0.3 < confidence f -> s = most_likely f) /\
  (most_likely f = most_likely o -> s = most_likely o) /\
  (confidence f <= 0.3 -> s = most_likely o).

(** Both single models return on [m]. *)
Definition models_return_on (m : Match) : Prop :=
  (exists f, predict_match_form_based m = Ok f) /\
  (exists o, predict_match_odds_based m = Ok o).

(** ** Client configuration and assembled rows *)

(** The environment variable that holds the key in use. *)
Definition key_variable (use_service_key : bool) : string :=
  if use_service_key then "SUPABASE_SERVICE_KEY"%string
  else "SUPABASE_ANON_KEY"%string.

(** The rows the weekly analysis assembles at [now]: the fetched matches,
    with odds, with histories. *)
Definition assembled_rows (isoformat : Datetime.datetime -> string)
    (now : Datetime.datetime) : list Assembler.Row :=
  snd (Assembler.add_histories
         (snd (Assembler.fetch_betting_odds isoformat now
                 (snd (Assembler.fetch_current_matches now))))).

(** ** Sample inputs *)

Definition prices (h d a : Q) : gmap string value :=
  {[ "home_win"%string := VNum h; "draw"%string := VNum d;
     "away_win"%string := VNum a ]}.

(** A row with no history columns. *)
Definition bare_match (o : option (gmap string value)) : Match :=
  {| match_id := 1;
     home_team_history := Absent;
     away_team_history := Absent;
     odds := o |}.

(** A row as the data processor assembles it. *)
Definition sample_history : TeamHistory :=
  {| recent_form := Some [1; 1; 0; 1; 0] |}.

Definition sample_odds : gmap string value :=
  <[ "source"%string := VStr "sample_bookmaker" ]> (prices 2.10 3.40 3.20).

Definition sample_match : Match :=
  {| match_id := 1;
     home_team_history := Present sample_history;
     away_team_history := Present sample_history;
     odds := Some sample_odds |}.

(** Three equal prices. *)
Definition level_match : Match := bare_match (Some (prices 3 3 3)).

(** A row whose odds block is present but empty. *)
Definition empty_block_match : Match :=
  {| match_id := 1;
     home_team_history := Present sample_history;
     away_team_history := Present sample_history;
     odds := Some ∅ |}.

(** A row whose odds block carries a source label and no price. *)
Definition unpriced_match : Match :=
  bare_match (Some {[ "source"%string := VStr "sample_bookmaker" ]}).

(** A row whose home history holds six games. *)
Definition six_game_match : Match :=
  {| match_id := 1;
     home_team_history := Present {| recent_form := Some [1; 1; 0; 1; 0; 1] |};
     away_team_history := Absent;
     odds := None |}.

(** A row without odds and without histories. *)
Definition plain_match : Match := bare_match None.

(** An environment with the address and the service key only, and a
    client library that hands back what it was given. *)
Definition backend_environ : gmap string string :=
  {[ "SUPABASE_URL"%string := "https://example.supabase.co"%string;
     "SUPABASE_SERVICE_KEY"%string := "service-key"%string ]}.

Definition echo_client (url key : string)
  : (string * string) + SupabaseClient.error :=
  inl (url, key).

(** A [matches] table that accepts writes and one that refuses them. *)
Definition working_table : Assembler.MemTable :=
  {| Assembler.table_rows := []; Assembler.table_fault := None |}.

Definition refusing_table : Assembler.MemTable :=
  {| Assembler.table_rows := [];
     Assembler.table_fault := Some (StoreError 503) |}.

(** Saturday 1 March 2025, 00:00: the start of the 2025 season. *)
Definition season_opening : Datetime.datetime :=
  {| Datetime.year := 2025; Datetime.month := 3; Datetime.day := 1;
     Datetime.hour := 0; Datetime.minute := 0; Datetime.second := 0;
     Datetime.microsecond := 0 |}.

(** [isoformat] for the sample runs, which all happen at [sample_now]. *)
Definition sample_isoformat (t : Datetime.datetime) : string :=
  "2025-03-08T13:00:00"%string.

(** Saturday 8 March 2025, 13:00: a week after the 2025 season start. *)
Definition sample_now : Datetime.datetime :=
  {| Datetime.year := 2025; Datetime.month := 3; Datetime.day := 8;
     Datetime.hour := 13; Datetime.minute := 0; Datetime.second := 0;
     Datetime.microsecond := 0 |}.

(** Stores: one that answers the read, one with no rows, one whose read
    fails. *)
Definition working_store : Engine.MemDb :=
  {| Engine.matches_rows := [sample_match; level_match];
     Engine.predictions_rows := [];
     Engine.read_fault := None;
     Engine.write_fault := None |}.

Definition empty_store : Engine.MemDb :=
  {| Engine.matches_rows := [];
     Engine.predictions_rows := [];
     Engine.read_fault := None;
     Engine.write_fault := None |}.

Definition unreadable_store : Engine.MemDb :=
  {| Engine.matches_rows := [sample_match; level_match];
     Engine.predictions_rows := [];
     Engine.read_fault := Some (StoreError 503);
     Engine.write_fault := None |}.

Definition unwritable_store : Engine.MemDb :=
  {| Engine.matches_rows := [sample_match; level_match];
     Engine.predictions_rows := [];
     Engine.read_fault := None;
     Engine.write_fault := Some (StoreError 503) |}.

(** * Properties *)

Ltac run := cbn [mbind result_bind Py.bind mret result_ret].

(** ** Rounding *)

Section Rounding.

Lemma ltb_spec (x y : Q) : reflect (x < y) (Py.ltb x y).
Proof.
  unfold Py.ltb. destruct (Qle_bool y x) eqn:E; simpl; constructor.
  - apply Qle_bool_iff in E. lra.
  - apply Qnot_le_lt. intros Hle.
    apply Qle_bool_iff in Hle. congruence.
Qed.

Lemma ltb_true (x y : Q) : Py.ltb x y = true <-> x < y.
Proof. destruct (ltb_spec x y); split; intros; try lra; congruence. Qed.

Lemma ltb_false (x y : Q) : Py.ltb x y = false <-> y <= x.
Proof. destruct (ltb_spec x y); split; intros; try lra; congruence. Qed.

(** The nearest integer is within one half. *)
Lemma round_half_even_close (x : Q) :
  x - (1 # 2) <= inject_Z (Py.round_half_even x) <= x + (1 # 2).
Proof.
  unfold Py.round_half_even.
  pose proof (Qfloor_le x) as Hlo.
  pose proof (Qlt_floor x) as Hhi.
  rewrite inject_Z_plus in Hhi. change (inject_Z 1) with 1 in Hhi.
  destruct (Qcompare_spec (x - inject_Z (Qfloor x)) (1 # 2)) as [E | E | E].
  - destruct (Z.even (Qfloor x)).
    + lra.
    + rewrite inject_Z_plus. change (inject_Z 1) with 1. lra.
  - lra.
  - rewrite inject_Z_plus. change (inject_Z 1) with 1. lra.
Qed.

(** It stays inside an interval with integer ends. *)
Lemma round_half_even_range (a b : Z) (x : Q) :
  inject_Z a <= x <= inject_Z b ->
  (a <= Py.round_half_even x <= b)%Z.
Proof.
  intros [Ha Hb].
  assert (Hfa : (a <= Qfloor x)%Z).
  { rewrite <- (Qfloor_Z a). now apply Qfloor_resp_le. }
  assert (Hfb : (Qfloor x <= b)%Z).
  { rewrite <- (Qfloor_Z b). now apply Qfloor_resp_le. }
  unfold Py.round_half_even.
  pose proof (Qfloor_le x) as Hlo.
  destruct (Qcompare_spec (x - inject_Z (Qfloor x)) (1 # 2)) as [E | E | E].
  - destruct (Z.even (Qfloor x)); [lia |].
    destruct (Z.eq_dec (Qfloor x) b) as [Heq | Hne]; [| lia].
    rewrite Heq in E. exfalso. lra.
  - lia.
  - destruct (Z.eq_dec (Qfloor x) b) as [Heq | Hne]; [| lia].
    rewrite Heq in E. exfalso. lra.
Qed.

Lemma round3_close (x : Q) :
  x - 0.0005 <= Py.round3 x <= x + 0.0005.
Proof.
  unfold Py.round3. rewrite Qred_correct.
  pose proof (round_half_even_close (x * 1000)) as [H1 H2].
  set (k := inject_Z (Py.round_half_even (x * 1000))) in *.
  split.
  - apply Qle_shift_div_l; lra.
  - apply Qle_shift_div_r; lra.
Qed.

Lemma round3_unit (x : Q) : 0 <= x <= 1 -> 0 <= Py.round3 x <= 1.
Proof.
  intros [H0 H1]. unfold Py.round3. rewrite Qred_correct.
  destruct (round_half_even_range 0 1000 (x * 1000)) as [Ha Hb].
  { change (inject_Z 0) with 0. change (inject_Z 1000) with 1000. lra. }
  rewrite Zle_Qle in Ha, Hb.
  change (inject_Z 0) with 0 in Ha. change (inject_Z 1000) with 1000 in Hb.
  set (k := inject_Z (Py.round_half_even (x * 1000))) in *.
  split.
  - apply Qle_shift_div_l; lra.
  - apply Qle_shift_div_r; lra.
Qed.

Lemma round_half_even_comp (x y : Q) :
  x == y -> Py.round_half_even x = Py.round_half_even y.
Proof.
  intros E. unfold Py.round_half_even.
  rewrite (Qfloor_comp x y E).
  assert (E2 : x - inject_Z (Qfloor y) == y - inject_Z (Qfloor y)) by (rewrite E; reflexivity).
  rewrite (Qcompare_comp _ _ E2 (1 # 2) (1 # 2) (Qeq_refl _)). reflexivity.
Qed.

Lemma round3_comp (x y : Q) : x == y -> Py.round3 x = Py.round3 y.
Proof.
  intros E. unfold Py.round3.
  rewrite (round_half_even_comp (x * 1000) (y * 1000)) by (rewrite E; reflexivity).
  reflexivity.
Qed.

Lemma round_half_even_Z (k : Z) : Py.round_half_even (inject_Z k) = k.
Proof.
  unfold Py.round_half_even. rewrite Qfloor_Z.
  destruct (Qcompare_spec (inject_Z k - inject_Z k) (1 # 2));
    [exfalso; lra | reflexivity | exfalso; lra].
Qed.

Lemma round3_idem (x : Q) : Py.round3 (Py.round3 x) = Py.round3 x.
Proof.
  unfold Py.round3 at 1 2.
  set (k := Py.round_half_even (x * 1000)).
  rewrite (round_half_even_comp _ (inject_Z k)).
  - now rewrite round_half_even_Z.
  - rewrite Qred_correct. field.
Qed.

Lemma round_half_even_mono (x y : Q) :
  x <= y -> (Py.round_half_even x <= Py.round_half_even y)%Z.
Proof.
  intros Hxy.
  pose proof (Qfloor_resp_le x y Hxy) as Hf.
  destruct (Z.eq_dec (Qfloor x) (Qfloor y)) as [E | NE].
  - unfold Py.round_half_even. rewrite E.
    destruct (Qcompare_spec (x - inject_Z (Qfloor y)) (1 # 2));
      destruct (Qcompare_spec (y - inject_Z (Qfloor y)) (1 # 2));
      destruct (Z.even (Qfloor y)); try lia; exfalso; lra.
  - assert (Hx : (Py.round_half_even x <= Qfloor x + 1)%Z).
    { unfold Py.round_half_even.
      destruct (Qcompare (x - inject_Z (Qfloor x)) (1 # 2));
        destruct (Z.even (Qfloor x)); lia. }
    assert (Hy : (Qfloor y <= Py.round_half_even y)%Z).
    { unfold Py.round_half_even.
      destruct (Qcompare (y - inject_Z (Qfloor y)) (1 # 2));
        destruct (Z.even (Qfloor y)); lia. }
    lia.
Qed.

Lemma round3_mono (x y : Q) : x <= y -> Py.round3 x <= Py.round3 y.
Proof.
  intros Hxy. unfold Py.round3. rewrite !Qred_correct.
  assert (H : (Py.round_half_even (x * 1000) <= Py.round_half_even (y * 1000))%Z)
    by (apply round_half_even_mono; lra).
  rewrite Zle_Qle in H.
  set (a := inject_Z (Py.round_half_even (x * 1000))) in *.
  set (b := inject_Z (Py.round_half_even (y * 1000))) in *.
  assert (Ea : a / 1000 * 1000 == a) by field.
  apply Qle_shift_div_l; lra.
Qed.


Lemma round3_three_decimals (x : Q) : three_decimals (Py.round3 x).
Proof.
  exists (Py.round_half_even (x * 1000)). unfold Py.round3.
  now rewrite Qred_correct.
Qed.

(** Two three-decimal numbers less than a thousandth apart are equal. *)
Lemma three_decimals_apart (h h' : Q) :
  three_decimals h -> three_decimals h' -> Qabs (h - h') < 0.001 -> h == h'.
Proof.
  intros [k Hk] [k' Hk'] Hd. rewrite Hk, Hk' in *.
  apply Qabs_Qlt_condition in Hd. destruct Hd as [Hlo Hhi].
  assert (Ek : inject_Z k == 1000 * (inject_Z k / 1000)) by field.
  assert (Ek' : inject_Z k' == 1000 * (inject_Z k' / 1000)) by field.
  set (a := inject_Z k / 1000) in *. set (b := inject_Z k' / 1000) in *.
  assert (H1 : inject_Z (k - 1) < inject_Z k').
  { unfold Z.sub. rewrite inject_Z_plus. change (inject_Z (- (1))) with (-1). lra. }
  assert (H2 : inject_Z k' < inject_Z (k + 1)).
  { rewrite inject_Z_plus. change (inject_Z 1) with 1. lra. }
  rewrite <- Zlt_Qlt in H1, H2.
  assert (E : k' = k) by lia.
  subst k'. reflexivity.
Qed.

End Rounding.

(** ** Form score *)

Section FormScore.

Lemma weights_for_length (l : list Q) :
  length (weights_for l) = Nat.min (length l) 5.
Proof. unfold weights_for. now rewrite length_firstn. Qed.

Lemma form_score_long (l : list Q) :
  (6 <= length l)%nat -> calculate_form_score l = Raise TypeError.
Proof.
  intros Hlen. unfold calculate_form_score.
  destruct l as [| x l']; [simpl in Hlen; lia |].
  unfold Np.average. fold (weights_for (x :: l')).
  rewrite weights_for_length.
  replace (Nat.min (length (x :: l')) 5) with 5%nat by lia.
  destruct (Nat.eqb_spec (length (x :: l')) 5) as [E | E]; [lia | reflexivity].
Qed.

Lemma form_score_short (l : list Q) :
  l <> [] -> (length l <= 5)%nat ->
  calculate_form_score l =
  Ok (Np.sum (Np.multiply l (weights_for l)) / Np.sum (weights_for l)).
Proof.
  intros Hne Hlen.
  destruct l as [| a l]; [congruence |].
  do 5 (destruct l as [| ? l]; [reflexivity |]).
  simpl in Hlen. lia.
Qed.

Lemma sum_nonneg (w : list Q) :
  Forall (fun y => 0 <= y) w -> 0 <= Np.sum w.
Proof. induction 1 as [| y w Hy _ IH]; simpl; lra. Qed.

Lemma weighted_sum_bounds (a w : list Q) :
  Forall in_unit a -> Forall (fun y => 0 <= y) w ->
  0 <= Np.sum (Np.multiply a w) <= Np.sum w.
Proof.
  intros Ha. revert w.
  induction Ha as [| x a [Hx0 Hx1] _ IH]; intros w Hw.
  - simpl. pose proof (sum_nonneg w Hw). lra.
  - destruct Hw as [| y w Hy Hw]; simpl; [lra |].
    specialize (IH w Hw).
    assert (0 <= x * y) by (apply Qmult_le_0_compat; lra).
    assert (x * y <= 1 * y) by (apply Qmult_le_compat_r; lra).
    lra.
Qed.

Lemma form_weights_nonneg : Forall (fun y => 0 <= y) form_weights.
Proof. unfold form_weights. repeat constructor; lra. Qed.

Lemma weights_for_nonneg (l : list Q) :
  Forall (fun y => 0 <= y) (weights_for l).
Proof. apply Forall_take, form_weights_nonneg. Qed.

Lemma weights_for_positive (l : list Q) :
  l <> [] -> 0 < Np.sum (weights_for l).
Proof.
  destruct l as [| a l]; [congruence |]. intros _.
  unfold weights_for, form_weights. simpl length. simpl firstn.
  pose proof form_weights_nonneg as Hw. unfold form_weights in Hw.
  apply Forall_inv_tail in Hw.
  apply (Forall_take _ (length l)) in Hw.
  apply sum_nonneg in Hw.
  simpl Np.sum. lra.
Qed.

(** For at most five games with results between 0 and 1, the score is
    between 0 and 1. *)
Lemma form_score_unit (l : list Q) :
  (length l <= 5)%nat -> Forall in_unit l ->
  exists v, calculate_form_score l = Ok v /\ in_unit v.
Proof.
  intros Hlen Hl.
  destruct l as [| a l'] eqn:El.
  - exists 0.5. split; [reflexivity | unfold in_unit; lra].
  - rewrite <- El in *. assert (Hne : l <> []) by (rewrite El; discriminate).
    clear El. eexists. split; [now apply form_score_short |].
    pose proof (weighted_sum_bounds l _ Hl (weights_for_nonneg l)) as [Hlo Hhi].
    pose proof (weights_for_positive l Hne) as Hpos.
    split.
    + apply Qle_shift_div_l; lra.
    + apply Qle_shift_div_r; lra.
Qed.

End FormScore.

Section Models.

Lemma normalise_unit (x y z : Q) :
  0 <= x -> 0 <= y -> 0 <= z -> 0 < x + y + z ->
  in_unit (x / (x + y + z)) /\ in_unit (y / (x + y + z)) /\
  in_unit (z / (x + y + z)) /\
  x / (x + y + z) + y / (x + y + z) + z / (x + y + z) == 1.
Proof.
  intros Hx Hy Hz Ht. unfold in_unit.
  repeat split;
    try (apply Qle_shift_div_l; lra); try (apply Qle_shift_div_r; lra).
  field. lra.
Qed.

Lemma div_ok (x y : Q) : ~ y == 0 -> Py.div x y = Ok (x / y).
Proof.
  intros Hy. unfold Py.div.
  destruct (Qeq_bool y 0) eqn:E; [| reflexivity].
  apply Qeq_bool_iff in E. contradiction.
Qed.

Lemma div_zero (x y : Q) : y == 0 -> Py.div x y = Raise ZeroDivisionError.
Proof.
  intros Hy. unfold Py.div. apply Qeq_bool_iff in Hy. now rewrite Hy.
Qed.

(** Rounding a normalised triple keeps every component in range and
    moves the sum by at most three half-units. *)
Lemma rounded_triple (x y z : Q) :
  in_unit x -> in_unit y -> in_unit z -> x + y + z == 1 ->
  in_unit (Py.round3 x) /\ in_unit (Py.round3 y) /\ in_unit (Py.round3 z) /\
  Qabs (Py.round3 x + Py.round3 y + Py.round3 z - 1) <= 0.0015.
Proof.
  intros Hx Hy Hz Hsum.
  repeat split; try (now apply round3_unit).
  pose proof (round3_close x). pose proof (round3_close y).
  pose proof (round3_close z).
  apply Qabs_Qle_condition. lra.
Qed.

Lemma history_ok_form (h : field TeamHistory) :
  history_ok h ->
  exists l v, history_recent_form h = Ok l /\ calculate_form_score l = Ok v /\ in_unit v.
Proof.
  destruct h as [| | th]; simpl; intros Hh.
  - exists [], 0.5. repeat split; unfold in_unit; simpl; lra.
  - contradiction.
  - destruct Hh as [Hlen Hall].
    destruct (form_score_unit _ Hlen Hall) as (v & Hv & Hu).
    eauto.
Qed.

Lemma form_based_shape (m : Match) :
  form_ok m ->
  exists x y z c,
    predict_match_form_based m =
      Ok {| home_prob := Py.round3 x; draw_prob := Py.round3 y;
            away_prob := Py.round3 z; confidence := Py.round3 c |} /\
    in_unit x /\ in_unit y /\ in_unit z /\ x + y + z == 1 /\ in_unit c.
Proof.
  intros [Hh Ha].
  destruct (history_ok_form _ Hh) as (lh & hf & Elh & Ehf & [Hhf0 Hhf1]).
  destruct (history_ok_form _ Ha) as (la & af & Ela & Eaf & [Haf0 Haf1]).
  unfold predict_match_form_based.
  rewrite Elh. run. rewrite Ehf. run. rewrite Ela. run. rewrite Eaf. run.
  set (t := hf + 0.1 + af).
  assert (Ht : 0 < t) by (unfold t; lra).
  destruct (Qeq_bool t 0) eqn:E; [apply Qeq_bool_iff in E; lra | clear E].
  set (hp := (hf + 0.1) / t * 0.7 + 0.15).
  set (ap := af / t * 0.7 + 0.15).
  assert (Hsum : hp + ap == 1) by (unfold hp, ap, t; field; lra).
  assert (Hhp : 0 <= (hf + 0.1) / t) by (apply Qle_shift_div_l; lra).
  assert (Hap : 0 <= af / t) by (apply Qle_shift_div_l; lra).
  assert (Hmax : Py.max2 0.1 (1 - hp - ap) = 0.1).
  { unfold Py.max2. destruct (ltb_spec 0.1 (1 - hp - ap)); [lra | reflexivity]. }
  rewrite Hmax.
  rewrite !div_ok by lra. run.
  exists (hp / (hp + 0.1 + ap)), (0.1 / (hp + 0.1 + ap)),
    (ap / (hp + 0.1 + ap)), (Qabs (hf - af)).
  split; [reflexivity |].
  destruct (normalise_unit hp 0.1 ap) as (H1 & H2 & H3 & H4);
    try (unfold hp, ap; lra).
  repeat (split; [assumption |]).
  split; [apply Qabs_nonneg | apply Qabs_Qle_condition; lra].
Qed.

Lemma min3_cases (a b c : Q) :
  Py.min3 a b c = a \/ Py.min3 a b c = b \/ Py.min3 a b c = c.
Proof.
  unfold Py.min3. destruct (Py.ltb b a); destruct (Py.ltb c _); auto.
Qed.

Lemma odds_get_price (o : gmap string value) (key : string) (dflt : Q) :
  price_ok o key -> 0 < dflt ->
  exists q, odds_get o key dflt = VNum q /\ 0 < q.
Proof.
  unfold price_ok, odds_get. intros Hp Hd.
  destruct (o !! key) as [[q | s |] |]; simpl; try contradiction; eauto.
Qed.

Lemma implied_shape (h d a : Q) :
  0 < h -> 0 < d -> 0 < a ->
  exists x y z c,
    implied_probabilities (VNum h) (VNum d) (VNum a) =
      Ok {| home_prob := Py.round3 x; draw_prob := Py.round3 y;
            away_prob := Py.round3 z; confidence := Py.round3 c |} /\
    in_unit x /\ in_unit y /\ in_unit z /\ x + y + z == 1 /\ in_unit c.
Proof.
  intros Hh Hd Ha. unfold implied_probabilities, inverse.
  rewrite !div_ok by lra. run.
  assert (Hih : 0 < 1 / h) by (apply Qlt_shift_div_l; lra).
  assert (Hid : 0 < 1 / d) by (apply Qlt_shift_div_l; lra).
  assert (Hia : 0 < 1 / a) by (apply Qlt_shift_div_l; lra).
  set (ih := 1 / h) in *. set (id := 1 / d) in *. set (ia := 1 / a) in *.
  rewrite !div_ok by lra. run.
  destruct (normalise_unit ih id ia) as (H1 & H2 & H3 & H4); try lra.
  do 4 eexists. split; [reflexivity |].
  repeat (split; [assumption |]).
  unfold in_unit in *.
  destruct (min3_cases (ih / (ih + id + ia)) (id / (ih + id + ia))
              (ia / (ih + id + ia))) as [-> | [-> | ->]]; lra.
Qed.

Lemma odds_based_shape (m : Match) :
  odds_ok m ->
  exists x y z c,
    predict_match_odds_based m =
      Ok {| home_prob := Py.round3 x; draw_prob := Py.round3 y;
            away_prob := Py.round3 z; confidence := Py.round3 c |} /\
    in_unit x /\ in_unit y /\ in_unit z /\ x + y + z == 1 /\ in_unit c.
Proof.
  unfold odds_ok, predict_match_odds_based.
  destruct (odds_falsy (odds m)).
  - apply form_based_shape.
  - intros (Hh & Hd & Ha).
    destruct (odds_get_price _ _ 2.0 Hh) as (h & -> & Hh'); [lra |].
    destruct (odds_get_price _ _ 3.0 Hd) as (d & -> & Hd'); [lra |].
    destruct (odds_get_price _ _ 2.0 Ha) as (a & -> & Ha'); [lra |].
    now apply implied_shape.
Qed.

(** Sums of three-decimal numbers move in steps of 1/1000. *)
Lemma thousandths_snap (n : Z) (x y z : Q) :
  Qabs (Py.round3 x + Py.round3 y + Py.round3 z - 1)
    < inject_Z (n + 1) / 1000 ->
  Qabs (Py.round3 x + Py.round3 y + Py.round3 z - 1) <= inject_Z n / 1000.
Proof.
  unfold Py.round3. rewrite !Qred_correct.
  set (a := Py.round_half_even (x * 1000)).
  set (b := Py.round_half_even (y * 1000)).
  set (c := Py.round_half_even (z * 1000)).
  intros H. apply Qabs_Qlt_condition in H. destruct H as [Hlo Hhi].
  assert (Hk : inject_Z a / 1000 + inject_Z b / 1000 + inject_Z c / 1000
               == inject_Z (a + b + c) / 1000).
  { rewrite !inject_Z_plus. field. }
  rewrite Hk in *. clear Hk.
  set (k := (a + b + c)%Z) in *.
  assert (Hs : inject_Z k == 1000 * (inject_Z k / 1000)) by field.
  assert (Hn : inject_Z (n + 1) == 1000 * (inject_Z (n + 1) / 1000)) by field.
  assert (Hn' : inject_Z n == 1000 * (inject_Z n / 1000)) by field.
  set (s := inject_Z k / 1000) in *.
  set (u := inject_Z (n + 1) / 1000) in *.
  set (v := inject_Z n / 1000) in *.
  assert (Hlo' : inject_Z (999 - n) < inject_Z k).
  { unfold Z.sub. rewrite inject_Z_plus, inject_Z_opp.
    rewrite inject_Z_plus in Hn. change (inject_Z 1) with 1 in Hn.
    change (inject_Z 999) with 999. lra. }
  assert (Hhi' : inject_Z k < inject_Z (1001 + n)).
  { rewrite inject_Z_plus.
    rewrite inject_Z_plus in Hn. change (inject_Z 1) with 1 in Hn.
    change (inject_Z 1001) with 1001. lra. }
  rewrite <- Zlt_Qlt in Hlo', Hhi'.
  assert (Hlo2 : inject_Z (1000 - n) <= inject_Z k)
    by (rewrite <- Zle_Qle; lia).
  assert (Hhi2 : inject_Z k <= inject_Z (1000 + n))
    by (rewrite <- Zle_Qle; lia).
  unfold Z.sub in Hlo2. rewrite inject_Z_plus, inject_Z_opp in Hlo2.
  rewrite inject_Z_plus in Hhi2.
  change (inject_Z 1000) with 1000 in Hlo2, Hhi2.
  apply Qabs_Qle_condition. lra.
Qed.

Lemma coded_form_ok (m : Match) : coded_form m -> form_ok m.
Proof.
  assert (Hh : forall h, coded_history h -> history_ok h).
  { intros [| | th]; simpl; auto. intros [Hlen Hall]. split; [exact Hlen |].
    eapply Forall_impl; [exact Hall |].
    intros x [E | [E | E]]; unfold in_unit; rewrite E; lra. }
  intros [H1 H2]. split; auto.
Qed.

Lemma usable_odds_ok (m : Match) : form_ok m -> usable_odds m -> odds_ok m.
Proof.
  unfold usable_odds, odds_ok, odds_falsy. intros Hf Hu.
  destruct (odds m) as [o |]; [| exact Hf].
  destruct (decide (o = ∅)) as [E | NE].
  - rewrite bool_decide_eq_true_2 by exact E. exact Hf.
  - rewrite bool_decide_eq_false_2 by exact NE. cbn [from_option id].
    destruct Hu as (H1 & H2 & H3).
    assert (Hp : forall k, listed_price o k -> price_ok o k).
    { intros k. unfold listed_price, price_ok.
      destruct (o !! k) as [[q | s |] |]; auto. intros [Hq _]. lra. }
    repeat split; auto.
Qed.

Lemma in_range_ok (m : Match) : match_in_range m -> form_ok m /\ odds_ok m.
Proof.
  intros [Hc Hu]. pose proof (coded_form_ok m Hc) as Hf.
  split; [exact Hf | now apply usable_odds_ok].
Qed.

Lemma form_fields_rounded (m : Match) (p : Prediction) :
  predict_match_form_based m = Ok p ->
  exists x y z c,
    p = {| home_prob := Py.round3 x; draw_prob := Py.round3 y;
           away_prob := Py.round3 z; confidence := Py.round3 c |}.
Proof.
  unfold predict_match_form_based.
  destruct (history_recent_form (home_team_history m)) as [lh | e]; run;
    [| discriminate].
  destruct (calculate_form_score lh) as [hf | e]; run; [| discriminate].
  destruct (history_recent_form (away_team_history m)) as [la | e]; run;
    [| discriminate].
  destruct (calculate_form_score la) as [af | e]; run; [| discriminate].
  destruct (Qeq_bool (hf + 0.1 + af) 0); run.
  - intros [= <-]. eauto.
  - repeat (match goal with
            | |- context [Py.div ?a ?b] =>
                destruct (Py.div a b); run; [| discriminate]
            end).
    intros [= <-]. eauto.
Qed.

Lemma implied_fields_rounded (v1 v2 v3 : value) (p : Prediction) :
  implied_probabilities v1 v2 v3 = Ok p ->
  exists x y z c,
    p = {| home_prob := Py.round3 x; draw_prob := Py.round3 y;
           away_prob := Py.round3 z; confidence := Py.round3 c |}.
Proof.
  unfold implied_probabilities.
  destruct (inverse v1) as [a |]; run; [| discriminate].
  destruct (inverse v2) as [b |]; run; [| discriminate].
  destruct (inverse v3) as [c |]; run; [| discriminate].
  repeat (match goal with
          | |- context [Py.div ?a ?b] =>
              destruct (Py.div a b); run; [| discriminate]
          end).
  intros [= <-]. eauto.
Qed.

Lemma odds_fields_rounded (m : Match) (p : Prediction) :
  predict_match_odds_based m = Ok p ->
  exists x y z c,
    p = {| home_prob := Py.round3 x; draw_prob := Py.round3 y;
           away_prob := Py.round3 z; confidence := Py.round3 c |}.
Proof.
  unfold predict_match_odds_based.
  destruct (odds_falsy (odds m)).
  - apply form_fields_rounded.
  - apply implied_fields_rounded.
Qed.

Lemma form_based_inv (m : Match) (p : Prediction) :
  predict_match_form_based m = Ok p ->
  exists lh hf la af,
    history_recent_form (home_team_history m) = Ok lh /\
    calculate_form_score lh = Ok hf /\
    history_recent_form (away_team_history m) = Ok la /\
    calculate_form_score la = Ok af.
Proof.
  unfold predict_match_form_based.
  destruct (history_recent_form (home_team_history m)) as [lh | e] eqn:E1; run;
    [| discriminate].
  destruct (calculate_form_score lh) as [hf | e] eqn:E2; run; [| discriminate].
  destruct (history_recent_form (away_team_history m)) as [la | e] eqn:E3; run;
    [| discriminate].
  destruct (calculate_form_score la) as [af | e] eqn:E4; run; [| discriminate].
  intros _. now exists lh, hf, la, af.
Qed.

(** With a non-zero total strength the two shares add up to 1, the draw
    share is floored at 0.1 and the three are divided by 1.1. *)
Lemma form_based_parts (m : Match) (lh la : list Q) (hf af : Q) :
  history_recent_form (home_team_history m) = Ok lh ->
  calculate_form_score lh = Ok hf ->
  history_recent_form (away_team_history m) = Ok la ->
  calculate_form_score la = Ok af ->
  ~ hf + 0.1 + af == 0 ->
  exists x z,
    x + z == 10 # 11 /\
    predict_match_form_based m =
      Ok {| home_prob := Py.round3 x; draw_prob := Py.round3 (1 # 11);
            away_prob := Py.round3 z;
            confidence := Py.round3 (Qabs (hf - af)) |}.
Proof.
  intros Elh Ehf Ela Eaf Ht. unfold predict_match_form_based.
  rewrite Elh. run. rewrite Ehf. run. rewrite Ela. run. rewrite Eaf. run.
  set (t := hf + 0.1 + af) in *.
  destruct (Qeq_bool t 0) eqn:E; [apply Qeq_bool_iff in E; contradiction |].
  set (hp := (hf + 0.1) / t * 0.7 + 0.15).
  set (ap := af / t * 0.7 + 0.15).
  assert (Hsum : hp + ap == 1) by (unfold hp, ap, t in *; field; exact Ht).
  assert (Hmax : Py.max2 0.1 (1 - hp - ap) = 0.1).
  { unfold Py.max2. destruct (ltb_spec 0.1 (1 - hp - ap)); [lra | reflexivity]. }
  rewrite Hmax. rewrite !div_ok by lra. run.
  assert (Hden : hp + 0.1 + ap == 11 # 10) by lra.
  exists (hp / (hp + 0.1 + ap)), (ap / (hp + 0.1 + ap)).
  split.
  - rewrite Hden.
    assert (E1 : hp / (11 # 10) + ap / (11 # 10) == (hp + ap) / (11 # 10))
      by field.
    rewrite E1, Hsum. reflexivity.
  - rewrite (round3_comp (0.1 / (hp + 0.1 + ap)) (1 # 11)); [reflexivity |].
    rewrite Hden. reflexivity.
Qed.

Lemma coded_form_scores (m : Match) :
  coded_form m ->
  exists lh hf la af,
    history_recent_form (home_team_history m) = Ok lh /\
    calculate_form_score lh = Ok hf /\
    history_recent_form (away_team_history m) = Ok la /\
    calculate_form_score la = Ok af /\
    in_unit hf /\ in_unit af.
Proof.
  intros Hc. destruct (coded_form_ok m Hc) as [Hh Ha].
  destruct (history_ok_form _ Hh) as (lh & hf & Elh & Ehf & Hhf).
  destruct (history_ok_form _ Ha) as (la & af & Ela & Eaf & Haf).
  exists lh, hf, la, af. auto 10.
Qed.

Lemma coded_form_parts (m : Match) :
  coded_form m ->
  exists x z c,
    x + z == 10 # 11 /\
    predict_match_form_based m =
      Ok {| home_prob := Py.round3 x; draw_prob := Py.round3 (1 # 11);
            away_prob := Py.round3 z; confidence := Py.round3 c |}.
Proof.
  intros Hc.
  destruct (coded_form_scores m Hc)
    as (lh & hf & la & af & Elh & Ehf & Ela & Eaf & [H1 _] & [H2 _]).
  destruct (form_based_parts m lh la hf af Elh Ehf Ela Eaf) as (x & z & Hxz & E).
  { lra. }
  eauto.
Qed.

Lemma min3_le (a b c : Q) :
  Py.min3 a b c <= a /\ Py.min3 a b c <= b /\ Py.min3 a b c <= c.
Proof.
  unfold Py.min3.
  destruct (ltb_spec b a);
    match goal with |- context [Py.ltb c ?m] => destruct (ltb_spec c m) end;
    repeat split; lra.
Qed.

Lemma inverse_antitone (h d : Q) : 0 < h -> h <= d -> 1 / d <= 1 / h.
Proof.
  intros Hh Hhd.
  apply Qle_shift_div_r; [lra |].
  assert (E : 1 / h * d == d / h) by (field; lra).
  rewrite E. apply Qle_shift_div_l; lra.
Qed.

Lemma implied_parts (h d a : Q) :
  0 < h -> 0 < d -> 0 < a ->
  exists x y z,
    implied_probabilities (VNum h) (VNum d) (VNum a) =
      Ok {| home_prob := Py.round3 x; draw_prob := Py.round3 y;
            away_prob := Py.round3 z;
            confidence := Py.round3 (1 - Py.min3 x y z) |} /\
    in_unit x /\ in_unit y /\ in_unit z /\ x + y + z == 1 /\
    (h <= d -> y <= x) /\ (d <= h -> x <= y) /\
    (h <= a -> z <= x) /\ (a <= h -> x <= z) /\
    (d <= a -> z <= y) /\ (a <= d -> y <= z).
Proof.
  intros Hh Hd Ha. unfold implied_probabilities, inverse.
  rewrite !div_ok by lra. run.
  assert (Hih : 0 < 1 / h) by (apply Qlt_shift_div_l; lra).
  assert (Hid : 0 < 1 / d) by (apply Qlt_shift_div_l; lra).
  assert (Hia : 0 < 1 / a) by (apply Qlt_shift_div_l; lra).
  pose proof (inverse_antitone h d Hh) as Mhd.
  pose proof (inverse_antitone d h Hd) as Mdh.
  pose proof (inverse_antitone h a Hh) as Mha.
  pose proof (inverse_antitone a h Ha) as Mah.
  pose proof (inverse_antitone d a Hd) as Mda.
  pose proof (inverse_antitone a d Ha) as Mad.
  set (ih := 1 / h) in *. set (id := 1 / d) in *. set (ia := 1 / a) in *.
  rewrite !div_ok by lra. run.
  destruct (normalise_unit ih id ia) as (H1 & H2 & H3 & H4); try lra.
  do 3 eexists. split; [reflexivity |].
  repeat (split; [assumption |]).
  assert (Ht : 0 < ih + id + ia) by lra.
  assert (Hq : forall u w, u <= w -> u / (ih + id + ia) <= w / (ih + id + ia)).
  { intros u w Huw. apply Qle_shift_div_l; [exact Ht |].
    assert (Eu : u / (ih + id + ia) * (ih + id + ia) == u) by (field; lra).
    apply Qle_trans with u; [apply Qle_lteq; right; exact Eu | exact Huw]. }
  split; [intros; apply Hq; auto |]. split; [intros; apply Hq; auto |].
  split; [intros; apply Hq; auto |]. split; [intros; apply Hq; auto |].
  split; intros; apply Hq; auto.
Qed.

Lemma odds_get_price_of (o : gmap string value) (key : string) (dflt : Q) :
  listed_price o key -> 1 <= dflt <= 1000 ->
  odds_get o key dflt = VNum (price_of o key dflt) /\
  1 <= price_of o key dflt <= 1000.
Proof.
  unfold listed_price, odds_get, price_of. intros Hp Hd.
  destruct (o !! key) as [[q | s |] |]; simpl; try contradiction; auto.
Qed.

Lemma odds_based_priced (m : Match) (o : gmap string value) :
  odds m = Some o -> o <> ∅ -> listed_prices o ->
  predict_match_odds_based m =
    implied_probabilities
      (VNum (price_of o "home_win" 2.0))
      (VNum (price_of o "draw" 3.0))
      (VNum (price_of o "away_win" 2.0)) /\
  0 < price_of o "home_win" 2.0 /\ 0 < price_of o "draw" 3.0 /\
  0 < price_of o "away_win" 2.0.
Proof.
  intros Ho Hne (Hh & Hd & Ha).
  destruct (odds_get_price_of o "home_win" 2.0 Hh) as [Eh Ph]; [lra |].
  destruct (odds_get_price_of o "draw" 3.0 Hd) as [Ed Pd]; [lra |].
  destruct (odds_get_price_of o "away_win" 2.0 Ha) as [Ea Pa]; [lra |].
  split; [| repeat split; lra].
  unfold predict_match_odds_based, odds_falsy. rewrite Ho.
  rewrite bool_decide_eq_false_2 by exact Hne. cbn [from_option id]. cbv zeta.
  now rewrite Eh, Ed, Ea.
Qed.


End Models.

(** ** The three outcome models *)

Section OutcomeModels.

Lemma blend_unit (a b : Q) : in_unit a -> in_unit b -> in_unit (0.6 * a + 0.4 * b).
Proof. unfold in_unit. intros. lra. Qed.

Lemma hybrid_unfold (m : Match) (f o : Prediction) :
  predict_match_form_based m = Ok f ->
  predict_match_odds_based m = Ok o ->
  predict_match_hybrid m = Ok (hybrid_blend o f).
Proof.
  intros Hf Ho. unfold predict_match_hybrid. rewrite Hf. run. rewrite Ho. run.
  reflexivity.
Qed.

Lemma snap_one (x y z : Q) :
  Qabs (Py.round3 x + Py.round3 y + Py.round3 z - 1) <= 0.0015 ->
  Qabs (Py.round3 x + Py.round3 y + Py.round3 z - 1) <= 0.001.
Proof.
  intros H. apply Qle_trans with (inject_Z 1 / 1000).
  - apply thousandths_snap. eapply Qle_lt_trans; [exact H | reflexivity].
  - vm_compute. discriminate.
Qed.

Lemma snap_two (x y z : Q) :
  Qabs (Py.round3 x + Py.round3 y + Py.round3 z - 1) <= 0.0025 ->
  Qabs (Py.round3 x + Py.round3 y + Py.round3 z - 1) <= 0.002.
Proof.
  intros H. apply Qle_trans with (inject_Z 2 / 1000).
  - apply thousandths_snap. eapply Qle_lt_trans; [exact H | reflexivity].
  - vm_compute. discriminate.
Qed.

(** C1, as amended: on a match in range (each history absent or holding
    at most five results coded 0, 0.5 or 1; each price that is present a
    number from 1 to 1000) each of the three models returns a triple
    whose components, as returned after rounding to three decimals, lie
    in [0,1]; the returned components of the form-based and of the
    odds-based model sum to 1.0 within 0.001, those of the hybrid model
    within 0.002, both up to the margin for float error. *)
Theorem model_probabilities_within_tolerance (m : Match) :
  match_in_range m ->
  (exists p, predict_match_form_based m = Ok p /\ probs_in_unit p /\
             Qabs (probs_sum p - 1) <= 0.001 + float_margin) /\
  (exists p, predict_match_odds_based m = Ok p /\ probs_in_unit p /\
             Qabs (probs_sum p - 1) <= 0.001 + float_margin) /\
  (exists p, predict_match_hybrid m = Ok p /\ probs_in_unit p /\
             Qabs (probs_sum p - 1) <= 0.002 + float_margin).
Proof.
  intros Hr. destruct (in_range_ok m Hr) as [Hf Ho].
  destruct (form_based_shape m Hf)
    as (fx & fy & fz & fc & Ef & Hfx & Hfy & Hfz & Hfs & _).
  destruct (odds_based_shape m Ho)
    as (ox & oy & oz & oc & Eo & Hox & Hoy & Hoz & Hos & _).
  destruct (rounded_triple fx fy fz Hfx Hfy Hfz Hfs) as (Fx & Fy & Fz & Fs).
  destruct (rounded_triple ox oy oz Hox Hoy Hoz Hos) as (Ox & Oy & Oz & Os).
  apply snap_one in Fs, Os.
  assert (M1 : 0.001 <= 0.001 + float_margin) by (unfold Qle; simpl; lia).
  assert (M2 : 0.002 <= 0.002 + float_margin) by (unfold Qle; simpl; lia).
  split; [| split].
  - eexists. split; [exact Ef |]. split; [exact (conj Fx (conj Fy Fz)) |].
    exact (Qle_trans _ _ _ Fs M1).
  - eexists. split; [exact Eo |]. split; [exact (conj Ox (conj Oy Oz)) |].
    exact (Qle_trans _ _ _ Os M1).
  - eexists. split; [exact (hybrid_unfold m _ _ Ef Eo) |].
    unfold hybrid_blend, probs_in_unit, probs_sum.
    cbn [home_prob draw_prob away_prob].
    set (hx := 0.6 * Py.round3 ox + 0.4 * Py.round3 fx).
    set (hy := 0.6 * Py.round3 oy + 0.4 * Py.round3 fy).
    set (hz := 0.6 * Py.round3 oz + 0.4 * Py.round3 fz).
    assert (Hhx : in_unit hx) by now apply blend_unit.
    assert (Hhy : in_unit hy) by now apply blend_unit.
    assert (Hhz : in_unit hz) by now apply blend_unit.
    split; [repeat split; now apply round3_unit |].
    refine (Qle_trans _ _ _ _ M2).
    apply snap_two.
    apply Qabs_Qle_condition in Fs, Os.
    pose proof (round3_close hx). pose proof (round3_close hy).
    pose proof (round3_close hz).
    apply Qabs_Qle_condition. unfold hx, hy, hz in *. lra.
Qed.

Lemma sample_match_in_range : match_in_range sample_match.
Proof.
  split.
  - assert (Hh : coded_history (Present sample_history)).
    { split; [simpl; lia |]. simpl.
      assert (H0 : result_code 0) by (left; reflexivity).
      assert (H1 : result_code 1) by (right; right; reflexivity).
      constructor; [exact H1 |]. constructor; [exact H1 |].
      constructor; [exact H0 |]. constructor; [exact H1 |].
      constructor; [exact H0 |]. constructor. }
    split; exact Hh.
  - unfold usable_odds, listed_prices, listed_price. vm_compute.
    split; [| split]; split; discriminate.
Qed.

Lemma level_match_in_range : match_in_range level_match.
Proof.
  split; [split; exact I |].
  unfold usable_odds, listed_prices, listed_price. vm_compute.
  split; [| split]; split; discriminate.
Qed.

Lemma model_probabilities_within_tolerance_witness :
  match_in_range sample_match /\
  (exists p, predict_match_form_based sample_match = Ok p /\
             probs_in_unit p /\
             Qabs (probs_sum p - 1) <= 0.001 + float_margin) /\
  (exists p, predict_match_odds_based sample_match = Ok p /\
             probs_in_unit p /\
             Qabs (probs_sum p - 1) <= 0.001 + float_margin) /\
  (exists p, predict_match_hybrid sample_match = Ok p /\
             probs_in_unit p /\
             Qabs (probs_sum p - 1) <= 0.002 + float_margin).
Proof.
  split; [exact sample_match_in_range |].
  exact (model_probabilities_within_tolerance sample_match
           sample_match_in_range).
Defined.

(** C1, as stated, fails: three equal prices give 0.333 three times, and
    the returned components sum to 0.999. *)
Lemma level_prices_sum_off :
  exists p,
    predict_match_odds_based level_match = Ok p /\
    probs_sum p == 0.999 /\
    ~ Qabs (probs_sum p - 1) <= 0.000001.
Proof.
  eexists. split; [vm_compute; reflexivity |].
  split; [reflexivity |]. vm_compute. intros H. now apply H.
Qed.

(** A blend of two three-decimal values is a multiple of 0.0002, so its
    rounding to three decimals never meets a tie. *)
Lemma blend_no_tie (x y : Q) :
  Qabs (Py.round3 (0.6 * Py.round3 x + 0.4 * Py.round3 y)
        - (0.6 * Py.round3 x + 0.4 * Py.round3 y)) <= 0.0004.
Proof.
  set (a := Py.round_half_even (x * 1000)).
  set (b := Py.round_half_even (y * 1000)).
  assert (Ex : Py.round3 x == inject_Z a / 1000)
    by (unfold Py.round3; now rewrite Qred_correct).
  assert (Ey : Py.round3 y == inject_Z b / 1000)
    by (unfold Py.round3; now rewrite Qred_correct).
  set (v := 0.6 * Py.round3 x + 0.4 * Py.round3 y).
  assert (Ev : v * 1000 == inject_Z (6 * a + 4 * b) / 10).
  { unfold v. rewrite Ex, Ey, inject_Z_plus, !inject_Z_mult.
    change (inject_Z 6) with 6. change (inject_Z 4) with 4. field. }
  pose proof (round_half_even_close (v * 1000)) as [Hlo Hhi].
  set (k := Py.round_half_even (v * 1000)) in *.
  assert (Ek : Py.round3 v == inject_Z k / 1000)
    by (unfold Py.round3; now rewrite Qred_correct).
  set (n := (6 * a + 4 * b)%Z) in *.
  assert (Hn : inject_Z n == 10 * (v * 1000)) by (rewrite Ev; field).
  assert (H1 : inject_Z (-5) <= inject_Z (10 * k - n)).
  { unfold Z.sub. rewrite inject_Z_plus, inject_Z_opp, inject_Z_mult.
    change (inject_Z 10) with 10. change (inject_Z (-5)) with (-5). lra. }
  assert (H2 : inject_Z (10 * k - n) <= inject_Z 5).
  { unfold Z.sub. rewrite inject_Z_plus, inject_Z_opp, inject_Z_mult.
    change (inject_Z 10) with 10. change (inject_Z 5) with 5. lra. }
  rewrite <- Zle_Qle in H1, H2.
  assert (H3 : (-4 <= 10 * k - n <= 4)%Z) by (unfold n in *; lia).
  destruct H3 as [H3 H4]. rewrite Zle_Qle in H3, H4.
  unfold Z.sub in H3, H4.
  rewrite inject_Z_plus, inject_Z_opp, inject_Z_mult in H3, H4.
  change (inject_Z 10) with 10 in H3, H4.
  change (inject_Z (-4)) with (-4) in H3. change (inject_Z 4) with 4 in H4.
  rewrite Ek. apply Qabs_Qle_condition.
  assert (Ekk : inject_Z k == 1000 * (inject_Z k / 1000)) by field.
  set (r := inject_Z k / 1000) in *.
  lra.
Qed.

Lemma hybrid_blend_rounded (o f : Prediction) :
  (exists x y z c,
     o = {| home_prob := Py.round3 x; draw_prob := Py.round3 y;
            away_prob := Py.round3 z; confidence := Py.round3 c |}) ->
  (exists x y z c,
     f = {| home_prob := Py.round3 x; draw_prob := Py.round3 y;
            away_prob := Py.round3 z; confidence := Py.round3 c |}) ->
  let h := hybrid_blend o f in
  blend_rounded (home_prob o) (home_prob f) (home_prob h) /\
  blend_rounded (draw_prob o) (draw_prob f) (draw_prob h) /\
  blend_rounded (away_prob o) (away_prob f) (away_prob h) /\
  mean_rounded (confidence o) (confidence f) (confidence h).
Proof.
  intros (ox & oy & oz & oc & ->) (fx & fy & fz & fc & ->) h.
  unfold h, hybrid_blend, blend_rounded, mean_rounded.
  cbn [home_prob draw_prob away_prob confidence].
  assert (Hb : forall x y,
            Qabs (Py.round3 (0.6 * Py.round3 x + 0.4 * Py.round3 y)
                  - (0.6 * Py.round3 x + 0.4 * Py.round3 y)) < 0.0005).
  { intros x y. eapply Qle_lt_trans; [apply blend_no_tie | reflexivity]. }
  split; [split; [apply round3_three_decimals | apply Hb] |].
  split; [split; [apply round3_three_decimals | apply Hb] |].
  split; [split; [apply round3_three_decimals | apply Hb] |].
  split; [apply round3_three_decimals |].
  apply Qle_trans with 0.0005; [| unfold Qle; simpl; lia].
  apply Qabs_Qle_condition.
  pose proof (round3_close ((Py.round3 oc + Py.round3 fc) / 2)). lra.
Qed.

Lemma hybrid_blend_proper (o f : Prediction) :
  proper o -> proper f -> proper (hybrid_blend o f).
Proof.
  intros [(O1 & O2 & O3) O4] [(F1 & F2 & F3) F4].
  unfold proper, probs_in_unit, hybrid_blend.
  cbn [home_prob draw_prob away_prob confidence].
  split; [split; [| split] |]; apply round3_unit.
  - now apply blend_unit.
  - now apply blend_unit.
  - now apply blend_unit.
  - unfold in_unit in *.
    split; [apply Qle_shift_div_l; lra | apply Qle_shift_div_r; lra].
Qed.

(** The three-decimal number that [blend_rounded] describes is unique. *)
Lemma blend_rounded_unique (o f h h' : Q) :
  blend_rounded o f h -> blend_rounded o f h' -> h == h'.
Proof.
  intros [T D] [T' D']. apply three_decimals_apart; [exact T | exact T' |].
  apply Qabs_Qlt_condition in D, D'. apply Qabs_Qlt_condition. lra.
Qed.

(** C3: whenever the form-based and the odds-based model return
    predictions with all numbers in [0,1], the hybrid model returns a
    prediction of the same kind in which each probability is 0.6 times
    the odds model's returned probability plus 0.4 times the form
    model's, rounded to three decimals (the one three-decimal number
    less than 0.0005 away from that blend), and the confidence is the
    mean of the two confidences rounded to three decimals (a
    three-decimal number within 0.0005 of the mean, up to the margin for
    float error). *)
Theorem hybrid_blends_returned_values (m : Match) (f o : Prediction) :
  predict_match_form_based m = Ok f ->
  predict_match_odds_based m = Ok o ->
  proper f -> proper o ->
  exists h,
    predict_match_hybrid m = Ok h /\ proper h /\
    blend_rounded (home_prob o) (home_prob f) (home_prob h) /\
    blend_rounded (draw_prob o) (draw_prob f) (draw_prob h) /\
    blend_rounded (away_prob o) (away_prob f) (away_prob h) /\
    mean_rounded (confidence o) (confidence f) (confidence h).
Proof.
  intros Hf Ho Pf Po. exists (hybrid_blend o f).
  split; [now apply hybrid_unfold |].
  split; [now apply hybrid_blend_proper |].
  apply hybrid_blend_rounded;
    [eapply odds_fields_rounded | eapply form_fields_rounded]; eassumption.
Qed.

(** On the sample match the form model returns
    (0.475, 0.091, 0.434, 0) and the odds model (0.44, 0.272, 0.289, 0.728),
    written below in lowest terms. *)
Lemma hybrid_blends_returned_values_witness :
  let f := {| home_prob := 19 # 40; draw_prob := 0.091;
              away_prob := 217 # 500; confidence := 0 |} in
  let o := {| home_prob := 11 # 25; draw_prob := 34 # 125;
              away_prob := 0.289; confidence := 91 # 125 |} in
  predict_match_form_based sample_match = Ok f /\
  predict_match_odds_based sample_match = Ok o /\
  proper f /\ proper o /\
  exists h,
    predict_match_hybrid sample_match = Ok h /\ proper h /\
    blend_rounded (home_prob o) (home_prob f) (home_prob h) /\
    blend_rounded (draw_prob o) (draw_prob f) (draw_prob h) /\
    blend_rounded (away_prob o) (away_prob f) (away_prob h) /\
    mean_rounded (confidence o) (confidence f) (confidence h).
Proof.
  intros f o.
  assert (Hf : predict_match_form_based sample_match = Ok f)
    by (vm_compute; reflexivity).
  assert (Ho : predict_match_odds_based sample_match = Ok o)
    by (vm_compute; reflexivity).
  assert (Pf : proper f).
  { unfold proper, probs_in_unit, in_unit, f.
    cbn [home_prob draw_prob away_prob confidence].
    split; [split; [| split] |]; split; unfold Qle; simpl; lia. }
  assert (Po : proper o).
  { unfold proper, probs_in_unit, in_unit, o.
    cbn [home_prob draw_prob away_prob confidence].
    split; [split; [| split] |]; split; unfold Qle; simpl; lia. }
  split; [exact Hf |]. split; [exact Ho |].
  split; [exact Pf |]. split; [exact Po |].
  exact (hybrid_blends_returned_values sample_match f o Hf Ho Pf Po).
Defined.

End OutcomeModels.

(** ** Form score: where it is defined *)

Section FormScoreDomain.

Lemma sum_multiply_combine (l w : list Q) :
  Np.sum (Np.multiply l w) =
  fold_right (fun xw acc => fst xw * snd xw + acc) 0 (combine l w).
Proof.
  revert w. induction l as [| x l IH]; intros [| y w]; simpl; try reflexivity.
  now rewrite IH.
Qed.

Lemma sum_take_combine (l w : list Q) :
  (length l <= length w)%nat ->
  Np.sum (firstn (length l) w) =
  fold_right (fun xw acc => snd xw + acc) 0 (combine l w).
Proof.
  revert w. induction l as [| x l IH]; intros [| y w] Hlen; simpl in *;
    try reflexivity; try lia.
  rewrite IH by lia. reflexivity.
Qed.

Lemma multiply_take (l w : list Q) :
  Np.multiply l (firstn (length l) w) = Np.multiply l w.
Proof.
  revert w. induction l as [| x l IH]; intros [| y w]; simpl; try reflexivity.
  now rewrite IH.
Qed.

Lemma result_code_in_unit (x : Q) : result_code x -> in_unit x.
Proof. unfold result_code, in_unit. intros [H | [H | H]]; rewrite H; lra. Qed.

(** C6, as amended: the empty sequence scores exactly 0.5, and every
    non-empty sequence of at most five entries in {0, 0.5, 1} scores the
    weighted average taken with the leading weights of
    [1.0, 0.8, 0.6, 0.4, 0.2], first weight on the most recent game; the
    score lies in [0,1]. *)
Theorem form_score_weighted_average (l : list Q) :
  (length l <= 5)%nat -> Forall result_code l ->
  exists v,
    calculate_form_score l = Ok v /\
    (l = [] -> v = 0.5) /\
    (l <> [] -> v = weighted_average l) /\
    in_unit v.
Proof.
  intros Hlen Hcodes.
  assert (Hunit : Forall in_unit l).
  { eapply Forall_impl; [exact Hcodes |]. exact result_code_in_unit. }
  destruct (form_score_unit l Hlen Hunit) as (v & Hv & Hin).
  exists v. split; [exact Hv |]. split; [| split; [| exact Hin]].
  - intros ->. simpl in Hv. congruence.
  - intros Hne. rewrite (form_score_short l Hne Hlen) in Hv.
    injection Hv as <-. unfold weighted_average, weights_for.
    rewrite multiply_take, sum_multiply_combine.
    rewrite sum_take_combine by (unfold form_weights; simpl; lia).
    reflexivity.
Qed.

Lemma form_score_weighted_average_witness :
  (length [1; 1; 0; 1; 0] <= 5)%nat /\
  Forall result_code [1; 1; 0; 1; 0] /\
  exists v,
    calculate_form_score [1; 1; 0; 1; 0] = Ok v /\
    ([1; 1; 0; 1; 0] = [] -> v = 0.5) /\
    ([1; 1; 0; 1; 0] <> [] -> v = weighted_average [1; 1; 0; 1; 0]) /\
    in_unit v.
Proof.
  assert (Hlen : (length [1; 1; 0; 1; 0] <= 5)%nat) by (simpl; lia).
  assert (Hcodes : Forall result_code [1; 1; 0; 1; 0]).
  { repeat constructor; unfold result_code;
      first [ left; reflexivity | right; right; reflexivity ]. }
  split; [exact Hlen |]. split; [exact Hcodes |].
  exact (form_score_weighted_average [1; 1; 0; 1; 0] Hlen Hcodes).
Defined.

(** C6, as stated, fails: six results, each a valid code, leave five
    weights against six entries, and no score is returned. *)
Lemma six_games_no_score :
  Forall result_code [1; 1; 0; 1; 0; 1] /\
  [1; 1; 0; 1; 0; 1] <> [] /\
  calculate_form_score [1; 1; 0; 1; 0; 1] = Raise TypeError /\
  ~ exists v, calculate_form_score [1; 1; 0; 1; 0; 1] = Ok v.
Proof.
  split.
  { repeat constructor; unfold result_code;
      first [ left; reflexivity | right; right; reflexivity ]. }
  split; [discriminate |]. split; [reflexivity |].
  intros [v Hv]. discriminate Hv.
Qed.

(** C9: a score is returned exactly for sequences of at most five
    results; six or more raise [TypeError] from the weighted average. *)
Theorem form_score_total_upto_five (l : list Q) :
  ((exists v, calculate_form_score l = Ok v) <-> (length l <= 5)%nat) /\
  ((6 <= length l)%nat -> calculate_form_score l = Raise TypeError).
Proof.
  split; [| apply form_score_long].
  split.
  - intros [v Hv].
    destruct (le_lt_dec (length l) 5) as [Hle | Hgt]; [exact Hle |].
    rewrite form_score_long in Hv by lia. discriminate.
  - intros Hlen. destruct l as [| a l'] eqn:El.
    + exists 0.5. reflexivity.
    + rewrite <- El in *. eexists. apply form_score_short; [| exact Hlen].
      rewrite El. discriminate.
Qed.

Lemma form_score_total_upto_five_witness :
  (6 <= length [1; 1; 0; 1; 0; 1])%nat /\
  calculate_form_score [1; 1; 0; 1; 0; 1] = Raise TypeError.
Proof.
  split; [simpl; lia |].
  apply (proj2 (form_score_total_upto_five [1; 1; 0; 1; 0; 1])).
  simpl. lia.
Defined.

End FormScoreDomain.

(** ** Outcome selection *)

Section Selection.

(** C4: the selected symbol carries a maximal probability; on exact ties
    home comes before draw and draw before away; the triple
    (0.4, 0.4, 0.2) selects home. *)
Theorem most_likely_first_max (p : Prediction) :
  (forall s, In s symbols -> prob_of p s <= prob_of p (most_likely p)) /\
  (draw_prob p <= home_prob p -> away_prob p <= home_prob p ->
   most_likely p = "1"%string) /\
  (home_prob p < draw_prob p -> away_prob p <= draw_prob p ->
   most_likely p = "X"%string) /\
  (home_prob p < away_prob p -> draw_prob p < away_prob p ->
   most_likely p = "2"%string) /\
  most_likely {| home_prob := 0.4; draw_prob := 0.4; away_prob := 0.2;
                 confidence := 0 |} = "1"%string.
Proof.
  unfold most_likely, Py.max_by. cbn [Py.max_by_from fst snd].
  split.
  { intros s Hs.
    destruct (ltb_spec (home_prob p) (draw_prob p));
      destruct (ltb_spec (home_prob p) (away_prob p));
      destruct (ltb_spec (draw_prob p) (away_prob p));
      simpl in Hs; destruct Hs as [<- | [<- | [<- | []]]];
      unfold prob_of; simpl; lra. }
  repeat split; try reflexivity; intros H1 H2;
    destruct (ltb_spec (home_prob p) (draw_prob p));
    destruct (ltb_spec (home_prob p) (away_prob p));
    destruct (ltb_spec (draw_prob p) (away_prob p));
    try reflexivity; exfalso; lra.
Qed.

Lemma most_likely_first_max_witness :
  most_likely {| home_prob := 0.3; draw_prob := 0.35; away_prob := 0.35;
                 confidence := 0 |} = "X"%string.
Proof.
  apply (proj1 (proj2 (proj2 (most_likely_first_max
    {| home_prob := 0.3; draw_prob := 0.35; away_prob := 0.35;
       confidence := 0 |})))); simpl; lra.
Defined.

End Selection.

(** ** Odds block with missing prices *)

Section OddsDefaults.

(** C10, as amended: when the odds block is present and not empty, the
    odds-based model never falls back to the form-based model; each
    missing price is replaced by its default (2.0 home win, 3.0 draw, 2.0
    away win) and the implied probabilities are computed from the result,
    whatever the histories are. *)
Theorem odds_defaults_when_block_nonempty (m : Match) (o : gmap string value) :
  odds m = Some o -> o <> ∅ ->
  predict_match_odds_based m =
    implied_probabilities
      (default (VNum 2.0) (o !! "home_win"))
      (default (VNum 3.0) (o !! "draw"))
      (default (VNum 2.0) (o !! "away_win")) /\
  forall m', odds m' = Some o ->
    predict_match_odds_based m' = predict_match_odds_based m.
Proof.
  intros Ho Hne.
  assert (Hgen : forall m0, odds m0 = Some o ->
            predict_match_odds_based m0 =
              implied_probabilities
                (default (VNum 2.0) (o !! "home_win"))
                (default (VNum 3.0) (o !! "draw"))
                (default (VNum 2.0) (o !! "away_win"))).
  { intros m0 H0. unfold predict_match_odds_based, odds_falsy.
    rewrite H0. rewrite bool_decide_eq_false_2 by exact Hne. reflexivity. }
  split; [now apply Hgen |].
  intros m' Hm'. rewrite (Hgen m' Hm'). symmetry. now apply Hgen.
Qed.

End OddsDefaults.

(** ** Combination generator *)

Section Loops.
Context {A B : Type} (f : A -> result B).

Lemma for_each_Forall2 (l : list A) (r : list B) :
  Py.for_each f l = Ok r -> Forall2 (fun x y => f x = Ok y) l r.
Proof.
  revert r. induction l as [| x xs IH]; intros r; cbn [Py.for_each].
  - intros [= <-]. constructor.
  - destruct (f x) as [y | e] eqn:Ex; run; [| discriminate].
    destruct (Py.for_each f xs) as [ys | e] eqn:Exs; run; [| discriminate].
    intros [= <-]. constructor; [exact Ex | now apply IH].
Qed.

Lemma for_each_total (l : list A) :
  Forall (fun x => exists y, f x = Ok y) l -> exists r, Py.for_each f l = Ok r.
Proof.
  induction 1 as [| x xs [y Hy] _ [ys Hys]]; cbn [Py.for_each].
  - now exists [].
  - rewrite Hy. run. rewrite Hys. run. now exists (y :: ys).
Qed.

End Loops.

Lemma most_likely_symbol (p : Prediction) : In (most_likely p) symbols.
Proof.
  unfold most_likely, Py.max_by. cbn [Py.max_by_from fst snd].
  repeat match goal with |- context [Py.ltb ?a ?b] => destruct (Py.ltb a b) end;
    simpl; auto.
Qed.

Lemma get_match_prediction_inv (m : Match) (meth sym : string) (p : Prediction) :
  get_match_prediction m meth = Ok (sym, p) ->
  sym = most_likely p /\
  (if String.eqb meth "form_based" then predict_match_form_based m
   else if String.eqb meth "odds_based" then predict_match_odds_based m
   else predict_match_hybrid m) = Ok p.
Proof.
  unfold get_match_prediction.
  destruct (if String.eqb meth "form_based" then _ else _) as [q | e]; run;
    [| discriminate].
  intros [= <- <-]. auto.
Qed.

Lemma hybrid_pick_symbol (m : Match) (s : string) :
  hybrid_pick m = Ok s -> In s symbols.
Proof.
  unfold hybrid_pick.
  destruct (get_match_prediction m "hybrid") as [[sym p] | e] eqn:E; run;
    [| discriminate].
  intros [= <-]. apply get_match_prediction_inv in E as [-> _].
  apply most_likely_symbol.
Qed.

Lemma conservative_pick_rule (m : Match) (s : string) :
  conservative_pick m = Ok s ->
  exists p, predict_match_hybrid m = Ok p /\ conservative_rule p s.
Proof.
  unfold conservative_pick.
  destruct (get_match_prediction m "hybrid") as [[sym p] | e] eqn:E; run;
    [| discriminate].
  apply get_match_prediction_inv in E as [_ E]. cbn in E.
  intros [= <-]. exists p. split; [exact E |]. cbn [snd]. unfold conservative_rule.
  destruct (ltb_spec 0.25 (draw_prob p));
    destruct (ltb_spec (away_prob p) (home_prob p));
    repeat split; intros; try reflexivity; exfalso; lra.
Qed.

Lemma conservative_pick_symbol (m : Match) (s : string) :
  conservative_pick m = Ok s -> In s symbols.
Proof.
  unfold conservative_pick.
  destruct (get_match_prediction m "hybrid") as [[sym p] | e]; run;
    [| discriminate].
  intros [= <-].
  destruct (Py.ltb 0.25 _); [| destruct (Py.ltb _ _)]; simpl; auto.
Qed.

Lemma value_pick_symbol (m : Match) (s : string) :
  value_pick m = Ok s -> In s symbols.
Proof.
  unfold value_pick.
  destruct (get_match_prediction m "form_based") as [[fs fp] | e] eqn:Ef; run;
    [| discriminate].
  destruct (get_match_prediction m "odds_based") as [[os op] | e] eqn:Eo; run;
    [| discriminate].
  apply get_match_prediction_inv in Ef as [-> _].
  apply get_match_prediction_inv in Eo as [-> _].
  intros [= <-]. destruct (_ && _); apply most_likely_symbol.
Qed.

Lemma generate_inv (matches : list Match) (combos : list Combination) :
  generate_stryktipset_combinations matches = Ok combos ->
  exists hy co va,
    Py.for_each hybrid_pick matches = Ok hy /\
    Py.for_each conservative_pick matches = Ok co /\
    Py.for_each value_pick matches = Ok va /\
    combos =
      [ {| method := "Hybrid Prediction"; combination := hy;
           description := "Most likely outcome for each match";
           confidence_tier := "Medium" |};
        {| method := "Conservative"; combination := co;
           description := "Safer picks favoring draws and home wins";
           confidence_tier := "High" |};
        {| method := "Value Betting"; combination := va;
           description := "Looking for odds vs form discrepancies";
           confidence_tier := "Low" |} ].
Proof.
  unfold generate_stryktipset_combinations.
  destruct (Py.for_each hybrid_pick matches) as [hy | e]; run; [| discriminate].
  destruct (Py.for_each conservative_pick matches) as [co | e]; run;
    [| discriminate].
  destruct (Py.for_each value_pick matches) as [va | e]; run; [| discriminate].
  intros [= <-]. now exists hy, co, va.
Qed.

Lemma picked_symbols (pick : Match -> result string) (matches : list Match)
    (combo : list string) :
  (forall m s, pick m = Ok s -> In s symbols) ->
  Py.for_each pick matches = Ok combo ->
  length combo = length matches /\ Forall (fun s => In s symbols) combo.
Proof.
  intros Hpick Hrun. apply for_each_Forall2 in Hrun.
  split.
  - symmetry. eapply Forall2_length. exact Hrun.
  - induction Hrun as [| m s ms ss Hms _ IH]; constructor; eauto.
Qed.

Lemma hybrid_pick_rule (m : Match) (s : string) :
  hybrid_pick m = Ok s ->
  exists p, predict_match_hybrid m = Ok p /\ s = most_likely p.
Proof.
  unfold hybrid_pick.
  destruct (get_match_prediction m "hybrid") as [[sym p] | e] eqn:E; run;
    [| discriminate].
  apply get_match_prediction_inv in E as [-> E]. cbn in E.
  intros [= <-]. eauto.
Qed.

Lemma value_pick_rule (m : Match) (s : string) :
  value_pick m = Ok s ->
  exists f o,
    predict_match_form_based m = Ok f /\ predict_match_odds_based m = Ok o /\
    value_rule f o s.
Proof.
  unfold value_pick.
  destruct (get_match_prediction m "form_based") as [[fs fp] | e] eqn:Ef; run;
    [| discriminate].
  destruct (get_match_prediction m "odds_based") as [[os op] | e] eqn:Eo; run;
    [| discriminate].
  apply get_match_prediction_inv in Ef as [-> Ef]. cbn in Ef.
  apply get_match_prediction_inv in Eo as [-> Eo]. cbn in Eo.
  intros [= <-]. exists fp, op. split; [exact Ef |]. split; [exact Eo |].
  unfold value_rule.
  destruct (String.eqb_spec (most_likely fp) (most_likely op)) as [E | NE];
    destruct (ltb_spec 0.3 (confidence fp)); cbn [negb andb];
    repeat split; intros; try reflexivity; try congruence; exfalso; lra.
Qed.

Lemma hybrid_inv (m : Match) (p : Prediction) :
  predict_match_hybrid m = Ok p ->
  exists f o,
    predict_match_form_based m = Ok f /\ predict_match_odds_based m = Ok o /\
    p = hybrid_blend o f.
Proof.
  unfold predict_match_hybrid.
  destruct (predict_match_form_based m) as [f | e] eqn:Ef; run; [| discriminate].
  destruct (predict_match_odds_based m) as [o | e] eqn:Eo; run; [| discriminate].
  intros [= <-]. now exists f, o.
Qed.

Lemma hybrid_returns_iff (m : Match) :
  (exists p, predict_match_hybrid m = Ok p) <-> models_return_on m.
Proof.
  split.
  - intros [p Hp]. destruct (hybrid_inv m p Hp) as (f & o & Ef & Eo & _).
    split; eauto.
  - intros [[f Ef] [o Eo]]. eexists. exact (hybrid_unfold m f o Ef Eo).
Qed.

Lemma in_range_models_return (m : Match) :
  match_in_range m -> models_return_on m.
Proof.
  intros Hr. destruct (in_range_ok m Hr) as [Hf Ho].
  destruct (form_based_shape m Hf) as (? & ? & ? & ? & Ef & _).
  destruct (odds_based_shape m Ho) as (? & ? & ? & ? & Eo & _).
  split; eauto.
Qed.

Lemma picks_return (m : Match) :
  models_return_on m ->
  (exists s, hybrid_pick m = Ok s) /\ (exists s, conservative_pick m = Ok s) /\
  (exists s, value_pick m = Ok s).
Proof.
  intros [[f Ef] [o Eo]].
  pose proof (hybrid_unfold m f o Ef Eo) as Eh.
  unfold hybrid_pick, conservative_pick, value_pick, get_match_prediction.
  cbn [String.eqb Ascii.eqb Bool.eqb]. rewrite Ef, Eo, Eh. run.
  split; [| split]; eexists; reflexivity.
Qed.

Lemma hybrid_pick_raise (m : Match) (e : exn) :
  hybrid_pick m = Raise e -> predict_match_hybrid m = Raise e.
Proof.
  unfold hybrid_pick, get_match_prediction. cbn [String.eqb Ascii.eqb Bool.eqb].
  destruct (predict_match_hybrid m) as [p | e']; run; [discriminate |].
  intros [= <-]. reflexivity.
Qed.

Lemma for_each_raise {A B : Type} (f : A -> result B) (l : list A) (e : exn) :
  Py.for_each f l = Raise e ->
  exists l1 x l2,
    l = l1 ++ x :: l2 /\ Forall (fun y => exists r, f y = Ok r) l1 /\
    f x = Raise e.
Proof.
  induction l as [| a l IH]; cbn [Py.for_each]; [discriminate |].
  destruct (f a) as [b | e'] eqn:Ea; run.
  - destruct (Py.for_each f l) as [bs | e''] eqn:El; run; [discriminate |].
    intros [= <-].
    destruct (IH eq_refl) as (l1 & x & l2 & -> & Hall & Hx).
    exists (a :: l1), x, l2. split; [reflexivity |].
    split; [constructor; eauto | exact Hx].
  - intros [= <-]. exists [], a, l. split; [reflexivity |].
    split; [constructor | exact Ea].
Qed.

Lemma hybrid_loop_defined (matches : list Match) (picks : list string) :
  Py.for_each hybrid_pick matches = Ok picks ->
  Forall models_return_on matches.
Proof.
  intros Hrun. apply for_each_Forall2 in Hrun.
  induction Hrun as [| m s ms ss Hms _ IH]; constructor; [| exact IH].
  apply hybrid_returns_iff.
  destruct (hybrid_pick_rule m s Hms) as (p & Hp & _). eauto.
Qed.

Lemma generator_total (matches : list Match) :
  Forall models_return_on matches ->
  exists combos, generate_stryktipset_combinations matches = Ok combos.
Proof.
  intros Hok.
  assert (Hh : exists r, Py.for_each hybrid_pick matches = Ok r).
  { apply for_each_total. eapply Forall_impl; [exact Hok |].
    intros m Hm. apply (picks_return m Hm). }
  assert (Hc : exists r, Py.for_each conservative_pick matches = Ok r).
  { apply for_each_total. eapply Forall_impl; [exact Hok |].
    intros m Hm. apply (picks_return m Hm). }
  assert (Hv : exists r, Py.for_each value_pick matches = Ok r).
  { apply for_each_total. eapply Forall_impl; [exact Hok |].
    intros m Hm. apply (picks_return m Hm). }
  destruct Hh as [hy Hh], Hc as [co Hc], Hv as [va Hv].
  unfold generate_stryktipset_combinations.
  rewrite Hh, Hc, Hv. run. eexists. reflexivity.
Qed.

Lemma generator_defined (matches : list Match) (combos : list Combination) :
  generate_stryktipset_combinations matches = Ok combos ->
  Forall models_return_on matches.
Proof.
  intros Hgen.
  destruct (generate_inv _ _ Hgen) as (hy & co & va & Hh & _ & _ & _).
  now apply hybrid_loop_defined in Hh.
Qed.

(** C7, as amended: on every sequence of matches in range (each history
    absent or holding at most five results coded 0, 0.5 or 1; each price
    that is present a number from 1 to 1000) the generator returns; it
    returns exactly when the form-based and the odds-based model return
    on every match; and whatever it returns is exactly three
    combinations, in the order Hybrid, Conservative, Value, each with one
    symbol per match drawn from the alphabet 1, X, 2. *)
Theorem generator_three_combinations (matches : list Match) :
  (Forall match_in_range matches ->
   exists combos, generate_stryktipset_combinations matches = Ok combos) /\
  ((exists combos, generate_stryktipset_combinations matches = Ok combos) <->
   Forall models_return_on matches) /\
  (forall combos,
     generate_stryktipset_combinations matches = Ok combos ->
     length combos = 3%nat /\
     map method combos =
       ["Hybrid Prediction"; "Conservative"; "Value Betting"]%string /\
     Forall (well_shaped (length matches)) combos).
Proof.
  split; [| split].
  - intros Hok. apply generator_total.
    eapply Forall_impl; [exact Hok |]. exact in_range_models_return.
  - split.
    + intros [combos Hgen]. exact (generator_defined _ _ Hgen).
    + apply generator_total.
  - intros combos Hgen.
    destruct (generate_inv _ _ Hgen) as (hy & co & va & Hh & Hc & Hv & ->).
    split; [reflexivity |]. split; [reflexivity |].
    pose proof (picked_symbols _ _ _ hybrid_pick_symbol Hh) as Sh.
    pose proof (picked_symbols _ _ _ conservative_pick_symbol Hc) as Sc.
    pose proof (picked_symbols _ _ _ value_pick_symbol Hv) as Sv.
    constructor; [exact Sh |]. constructor; [exact Sc |].
    constructor; [exact Sv |]. constructor.
Qed.

Lemma generator_three_combinations_witness :
  Forall match_in_range [sample_match; level_match] /\
  Forall models_return_on [sample_match; level_match] /\
  exists combos,
    generate_stryktipset_combinations [sample_match; level_match] = Ok combos /\
    length combos = 3%nat /\
    map method combos =
      ["Hybrid Prediction"; "Conservative"; "Value Betting"]%string /\
    Forall (well_shaped 2) combos.
Proof.
  assert (Hok : Forall match_in_range [sample_match; level_match]).
  { constructor; [exact sample_match_in_range |].
    constructor; [exact level_match_in_range | constructor]. }
  destruct (generator_three_combinations [sample_match; level_match])
    as (Htotal & Hiff & Hshape).
  destruct (Htotal Hok) as [combos Hgen].
  split; [exact Hok |].
  split; [apply Hiff; exists combos; exact Hgen |].
  exists combos. split; [exact Hgen |]. exact (Hshape combos Hgen).
Defined.

(** C7, as stated, fails: on a sequence of one match whose home history
    holds six games the generator raises [TypeError] and returns no
    combination at all. *)
Lemma six_game_history_raises :
  generate_stryktipset_combinations [six_game_match] = Raise TypeError /\
  ~ (exists combos,
       generate_stryktipset_combinations [six_game_match] = Ok combos /\
       length combos = 3%nat).
Proof.
  assert (E : generate_stryktipset_combinations [six_game_match]
              = Raise TypeError) by (vm_compute; reflexivity).
  split; [exact E |].
  intros (combos & Hgen & _). rewrite E in Hgen. discriminate Hgen.
Qed.

(** C8: in the Conservative combination the symbol of each match is X
    when the hybrid draw probability exceeds 0.25, whatever the other two
    are; otherwise 1 when the hybrid home probability exceeds the away
    probability; otherwise 2. *)
Theorem conservative_prefers_draw (matches : list Match)
    (combos : list Combination) :
  generate_stryktipset_combinations matches = Ok combos ->
  exists c,
    combos !! 1%nat = Some c /\ method c = "Conservative"%string /\
    Forall2 (fun m s =>
               exists p, predict_match_hybrid m = Ok p /\ conservative_rule p s)
            matches (combination c).
Proof.
  intros Hgen.
  destruct (generate_inv _ _ Hgen) as (hy & co & va & _ & Hc & _ & ->).
  eexists. split; [reflexivity |]. split; [reflexivity |]. cbn [combination].
  apply for_each_Forall2 in Hc.
  eapply Forall2_impl; [exact Hc |].
  intros m s Hms. now apply conservative_pick_rule.
Qed.

(** ** Round number *)

Section RoundNumber.

Import Datetime.
Local Open Scope Z_scope.

Lemma time_of_day_range (t : datetime) :
  valid t -> 0 <= time_of_day t < us_per_day.
Proof.
  unfold valid, time_of_day, us_per_day. intros (_ & _ & _ & Hh & Hm & Hs & Hu).
  nia.
Qed.

Lemma ordinal_of_instant (t : datetime) :
  valid t -> ordinal_of (instant t) = toordinal t.
Proof.
  intros Hv. pose proof (time_of_day_range t Hv) as Ht.
  unfold ordinal_of, instant, us_per_day in *.
  Z.div_mod_to_equations. lia.
Qed.

Lemma season_start_ordinal (y : Z) :
  exists k, 0 <= k <= 6 /\
    k = (5 - weekday (midnight y 3 1)) mod 7 /\
    season_start y = (ymd2ord y 3 1 + k) * us_per_day /\
    ordinal_of (season_start y) = ymd2ord y 3 1 + k /\
    weekday (season_start y) = 5 /\
    (forall j, 0 <= j < k ->
       weekday (plus_days (midnight y 3 1) j) <> 5).
Proof.
  exists ((5 - weekday (midnight y 3 1)) mod 7).
  unfold season_start, weekday, plus_days, midnight, ordinal_of.
  set (o := ymd2ord y 3 1). unfold us_per_day.
  rewrite Z.div_mul by lia.
  set (k := (5 - (o + 6) mod 7) mod 7).
  assert (Hk : 0 <= k <= 6) by (unfold k; Z.div_mod_to_equations; lia).
  replace (o * 86400000000 + k * 86400000000) with ((o + k) * 86400000000) by lia.
  rewrite Z.div_mul by lia.
  split; [exact Hk |]. split; [reflexivity |]. split; [reflexivity |].
  split; [reflexivity |].
  split.
  - unfold k. Z.div_mod_to_equations. lia.
  - intros j Hj.
    replace (o * 86400000000 + j * 86400000000)
      with ((o + j) * 86400000000) by lia.
    rewrite Z.div_mul by lia.
    unfold k in Hj. Z.div_mod_to_equations. lia.
Qed.

(** C5: the season starts on the first Saturday on or after March 1 of
    the current year, found with the offset (5 - weekday) mod 7; the round
    is 1 before the start and on the start date, 2 seven days later, and
    from the start on it is floor(days since start / 7) + 1, never above
    35.  Both copies of the function agree. *)
Theorem round_number_by_weeks (now : datetime) :
  valid now ->
  let start := season_start (year now) in
  let march_first := midnight (year now) 3 1 in
  let days_since_start := toordinal now - ordinal_of start in
  let round := Predictor.get_current_round_number now in
  start = plus_days march_first ((5 - weekday march_first) mod 7) /\
  weekday start = 5 /\
  0 <= ordinal_of start - ordinal_of march_first <= 6 /\
  (forall j, 0 <= j < ordinal_of start - ordinal_of march_first ->
     weekday (plus_days march_first j) <> 5) /\
  (instant now < start -> round = 1) /\
  (days_since_start = 0 -> round = 1) /\
  (days_since_start = 7 -> round = 2) /\
  round = (if instant now <? start then 1
           else Z.min (days_since_start / 7 + 1) 35) /\
  1 <= round <= 35 /\
  DataProcessor.get_current_round_number now = round.
Proof.
  intros Hv start march_first days_since_start round.
  destruct (season_start_ordinal (year now))
    as (k & Hk & Ek & Es & Eo & Ew & Hfirst).
  pose proof (time_of_day_range now Hv) as Ht.
  assert (Emf : ordinal_of march_first = ymd2ord (year now) 3 1).
  { unfold march_first, midnight, ordinal_of, us_per_day.
    apply Z.div_mul. lia. }
  assert (Edelta : delta_days (instant now) start = days_since_start).
  { unfold delta_days, days_since_start. fold start in Eo. rewrite Eo.
    unfold start. rewrite Es. unfold instant, us_per_day in *.
    Z.div_mod_to_equations. lia. }
  assert (Elt : instant now < start <-> days_since_start < 0).
  { unfold days_since_start. fold start in Eo, Es. rewrite Eo, Es.
    unfold instant, us_per_day in *. lia. }
  assert (Eround : round = (if instant now <? start then 1
                            else Z.min (days_since_start / 7 + 1) 35)).
  { rewrite <- Edelta. reflexivity. }
  split; [reflexivity |]. split; [exact Ew |].
  fold start in Eo.
  split; [rewrite Eo, Emf; lia |].
  split; [intros j Hj; apply Hfirst; rewrite Eo, Emf in Hj; lia |].
  assert (Edp : DataProcessor.get_current_round_number now = round)
    by reflexivity.
  rewrite Edp, Eround.
  split.
  { intros H. apply Z.ltb_lt in H. now rewrite H. }
  split.
  { intros H. rewrite H. now destruct (instant now <? start). }
  split.
  { intros H. destruct (Z.ltb_spec (instant now) start) as [Hlt | Hge].
    - apply Elt in Hlt. lia.
    - rewrite H. reflexivity. }
  split; [reflexivity |].
  split; [| reflexivity].
  destruct (Z.ltb_spec (instant now) start) as [Hlt | Hge]; [lia |].
  assert (0 <= days_since_start) by lia.
  Z.div_mod_to_equations. lia.
Qed.

End RoundNumber.

(** ** The run and the store *)

Section StoreFailures.

Import Engine.

Context {db : Type} `{Supabase db}.

Lemma load_swallows_failure (s : db) (e : exn) :
  select_matches s = Raise e ->
  load_current_matches s = ([LoadingMatches; ErrorLoadingMatches e], []).
Proof. intros Hs. unfold load_current_matches. now rewrite Hs. Qed.

Lemma load_empty (s : db) :
  select_matches s = Ok [] ->
  load_current_matches s = ([LoadingMatches; NoMatchesInDatabase], []).
Proof. intros Hs. unfold load_current_matches. now rewrite Hs. Qed.

(** C2, as amended: a failure of the match read is caught by the loader,
    logged, and replaced by the empty list of matches; the run then ends
    normally with no predictions and the store untouched, which is the
    outcome of empty input.  Only the loader's log line tells the two
    apart. *)
Theorem read_failure_ends_as_empty_input
    (now : Datetime.datetime) (s : db) (e : exn) :
  select_matches s = Raise e ->
  run_prediction_engine now s =
    ([StartingGeneration; PredictionDate now; LoadingMatches;
      ErrorLoadingMatches e; NoMatchesCannotGenerate], s, Ok None) /\
  forall s0 : db,
    select_matches s0 = Ok [] ->
    run_prediction_engine now s0 =
      ([StartingGeneration; PredictionDate now; LoadingMatches;
        NoMatchesInDatabase; NoMatchesCannotGenerate], s0, Ok None).
Proof.
  intros Hs. split.
  - unfold run_prediction_engine. now rewrite (load_swallows_failure s e Hs).
  - intros s0 Hs0. unfold run_prediction_engine. now rewrite (load_empty s0 Hs0).
Qed.

(** The write path, by contrast, re-raises. *)
Lemma write_failure_propagates
    (now : Datetime.datetime) (s : db) (e : exn) (predictions : list Combination) :
  delete_predictions (get_current_round_number now) s = Raise e ->
  store_predictions now predictions s =
    ([StoringPredictions; ErrorStoringPredictions e], s, Raise e).
Proof. intros Hd. unfold store_predictions. now rewrite Hd. Qed.

End StoreFailures.

(** ** Concrete runs *)

Section ConcreteRuns.

Import Engine.

Lemma read_failure_ends_as_empty_input_witness :
  select_matches unreadable_store = Raise (StoreError 503) /\
  run_prediction_engine sample_now unreadable_store =
    ([StartingGeneration; PredictionDate sample_now; LoadingMatches;
      ErrorLoadingMatches (StoreError 503); NoMatchesCannotGenerate],
     unreadable_store, Ok None).
Proof.
  split; [reflexivity |].
  apply (read_failure_ends_as_empty_input sample_now unreadable_store
           (StoreError 503)).
  reflexivity.
Defined.

(** C2, as stated, fails: the read raises, yet the run does not end with
    that error; it returns what it returns for a store with no rows. *)
Lemma read_failure_not_propagated :
  select_matches unreadable_store = Raise (StoreError 503) /\
  snd (run_prediction_engine sample_now unreadable_store) = Ok None /\
  snd (run_prediction_engine sample_now unreadable_store) <>
    Raise (StoreError 503) /\
  snd (run_prediction_engine sample_now unreadable_store) =
    snd (run_prediction_engine sample_now empty_store).
Proof.
  split; [reflexivity |].
  split; [vm_compute; reflexivity |].
  split; [vm_compute; discriminate |].
  vm_compute; reflexivity.
Qed.

Lemma round_number_by_weeks_witness :
  Datetime.valid sample_now /\
  Datetime.weekday (season_start 2025) = 5%Z /\
  Predictor.get_current_round_number sample_now = 2%Z.
Proof.
  assert (Hv : Datetime.valid sample_now) by (vm_compute; intuition discriminate).
  split; [exact Hv |].
  pose proof (round_number_by_weeks sample_now Hv)
    as (_ & Hw & _ & _ & _ & _ & H7 & _).
  split; [exact Hw |].
  apply H7. reflexivity.
Defined.

Lemma conservative_prefers_draw_witness :
  let combos :=
    [ {| method := "Hybrid Prediction"; combination := ["1"; "1"];
         description := "Most likely outcome for each match";
         confidence_tier := "Medium" |};
      {| method := "Conservative"; combination := ["1"; "1"];
         description := "Safer picks favoring draws and home wins";
         confidence_tier := "High" |};
      {| method := "Value Betting"; combination := ["1"; "1"];
         description := "Looking for odds vs form discrepancies";
         confidence_tier := "Low" |} ]%string in
  generate_stryktipset_combinations [sample_match; level_match] = Ok combos /\
  exists c,
    combos !! 1%nat = Some c /\ method c = "Conservative"%string /\
    Forall2 (fun m s =>
               exists p, predict_match_hybrid m = Ok p /\ conservative_rule p s)
            [sample_match; level_match] (combination c).
Proof.
  intros combos.
  assert (Hgen : generate_stryktipset_combinations [sample_match; level_match]
                 = Ok combos) by (vm_compute; reflexivity).
  split; [exact Hgen |].
  exact (conservative_prefers_draw _ _ Hgen).
Defined.

Lemma odds_defaults_when_block_nonempty_witness :
  odds unpriced_match = Some {[ "source"%string := VStr "sample_bookmaker" ]} /\
  predict_match_odds_based unpriced_match =
    implied_probabilities (VNum 2.0) (VNum 3.0) (VNum 2.0) /\
  predict_match_odds_based unpriced_match =
    Ok {| home_prob := 3 # 8; draw_prob := 1 # 4; away_prob := 3 # 8;
          confidence := 3 # 4 |}.
Proof.
  split; [reflexivity |].
  assert (Hne : ({[ "source"%string := VStr "sample_bookmaker" ]}
                 : gmap string value) <> ∅).
  { intros Heq.
    apply (f_equal (fun d : gmap string value => d !! "source"%string)) in Heq.
    vm_compute in Heq. discriminate Heq. }
  destruct (odds_defaults_when_block_nonempty unpriced_match _ eq_refl Hne)
    as [Hrun _].
  split; [exact Hrun |]. vm_compute. reflexivity.
Defined.

(** C10, as stated, fails: an odds block that is present but empty lacks
    all three prices, and the model falls back to the form-based model
    instead of computing from the default prices. *)
Lemma empty_block_falls_back :
  odds empty_block_match = Some ∅ /\
  predict_match_odds_based empty_block_match =
    predict_match_form_based empty_block_match /\
  predict_match_odds_based empty_block_match <>
    implied_probabilities (VNum 2.0) (VNum 3.0) (VNum 2.0).
Proof.
  split; [reflexivity |]. split; [reflexivity |].
  intros Heq. vm_compute in Heq. discriminate Heq.
Qed.

(** Prices (2.0, 3.0, 6.0) imply 0.5, 0.333 and 0.167. *)
Example implied_from_two_three_six :
  implied_probabilities (VNum 2.0) (VNum 3.0) (VNum 6.0) =
    Ok {| home_prob := 1 # 2; draw_prob := 0.333; away_prob := 0.167;
          confidence := 0.833 |}.
Proof. vm_compute. reflexivity. Qed.

(** A price of zero is not validated: the inversion raises. *)
Example zero_price_raises :
  predict_match_odds_based (bare_match (Some (prices 0 3 2))) =
    Raise ZeroDivisionError.
Proof. vm_compute. reflexivity. Qed.

(** A null history column is not validated either. *)
Example null_history_raises :
  predict_match_form_based
    {| match_id := 1; home_team_history := Null;
       away_team_history := Absent; odds := None |} = Raise AttributeError.
Proof. reflexivity. Qed.

(** A full run: three rows are written for round 2, in generation order. *)
Example run_on_working_store :
  exists log s' predictions,
    run_prediction_engine sample_now working_store
      = (log, s', Ok (Some predictions)) /\
    map method predictions =
      ["Hybrid Prediction"; "Conservative"; "Value Betting"]%string /\
    map (fun r => (round_number r, rec_combination r, prediction_order r))
        (predictions_rows s') =
      [(2, "11", 1); (2, "11", 2); (2, "11", 3)]%Z%string.
Proof.
  do 3 eexists. split; [vm_compute; reflexivity |].
  split; reflexivity.
Qed.

(** A failing write ends the run with the store's error. *)
Example run_on_unwritable_store :
  snd (run_prediction_engine sample_now unwritable_store) =
    Raise (StoreError 503).
Proof. vm_compute. reflexivity. Qed.

End ConcreteRuns.

(** ** The form-based model on coded histories *)

Section FormModelFacts.

(** With the draw share at 1/11 and the other two adding up to 10/11, the
    selection is never the draw. *)
Lemma floor_pick (x z c : Q) :
  x + z == 10 # 11 ->
  let p := {| home_prob := Py.round3 x; draw_prob := Py.round3 (1 # 11);
              away_prob := Py.round3 z; confidence := c |} in
  most_likely p = "1"%string \/ most_likely p = "2"%string.
Proof.
  intros Hxz p. unfold most_likely, Py.max_by.
  cbn [Py.max_by_from fst snd home_prob draw_prob away_prob p].
  assert (Hd : Py.round3 (1 # 11) == 0.091) by reflexivity.
  assert (Hbig : 0.455 <= Py.round3 x \/ 0.455 <= Py.round3 z).
  { assert (Hh : Py.round3 (5 # 11) == 0.455) by reflexivity.
    destruct (Qlt_le_dec x (5 # 11)) as [Hlt | Hge].
    - right. rewrite <- Hh. apply round3_mono. lra.
    - left. rewrite <- Hh. now apply round3_mono. }
  destruct (ltb_spec (Py.round3 x) (Py.round3 (1 # 11)));
    destruct (ltb_spec (Py.round3 (1 # 11)) (Py.round3 z));
    destruct (ltb_spec (Py.round3 x) (Py.round3 z));
    auto; exfalso; destruct Hbig; lra.
Qed.

(** On coded histories the form-based model returns a draw probability of
    0.091 (the floor 0.1 divided by 1.1), whatever the two histories are,
    and its selection is a home win or an away win, never the draw. *)
Theorem form_model_draw_floor (m : Match) :
  coded_form m ->
  exists p,
    predict_match_form_based m = Ok p /\
    draw_prob p == 0.091 /\
    (most_likely p = "1"%string \/ most_likely p = "2"%string) /\
    get_match_prediction m "form_based" = Ok (most_likely p, p).
Proof.
  intros Hc. destruct (coded_form_parts m Hc) as (x & z & c & Hxz & E).
  eexists. split; [exact E |]. split; [reflexivity |].
  split; [exact (floor_pick x z _ Hxz) |].
  unfold get_match_prediction. cbn [String.eqb Ascii.eqb Bool.eqb].
  rewrite E. reflexivity.
Qed.

Lemma form_model_draw_floor_witness :
  coded_form sample_match /\
  exists p,
    predict_match_form_based sample_match = Ok p /\
    draw_prob p == 0.091 /\
    (most_likely p = "1"%string \/ most_likely p = "2"%string) /\
    get_match_prediction sample_match "form_based" = Ok (most_likely p, p).
Proof.
  split; [exact (proj1 sample_match_in_range) |].
  exact (form_model_draw_floor sample_match (proj1 sample_match_in_range)).
Defined.

End FormModelFacts.

(** ** The odds-based model on listed prices *)

Section OddsModelFacts.

(** The odds-based model orders the outcomes against their prices: of two
    outcomes the one with the lower price gets at least the probability
    of the other, and an outcome whose price is lowest is selected when
    it is the home win. *)
Theorem lower_price_higher_probability (m : Match) (o : gmap string value) :
  odds m = Some o -> o <> ∅ -> listed_prices o ->
  let h := price_of o "home_win" 2.0 in
  let d := price_of o "draw" 3.0 in
  let a := price_of o "away_win" 2.0 in
  exists p,
    predict_match_odds_based m = Ok p /\
    (h <= d -> draw_prob p <= home_prob p) /\
    (d <= h -> home_prob p <= draw_prob p) /\
    (h <= a -> away_prob p <= home_prob p) /\
    (a <= h -> home_prob p <= away_prob p) /\
    (d <= a -> away_prob p <= draw_prob p) /\
    (a <= d -> draw_prob p <= away_prob p) /\
    (h <= d -> h <= a -> most_likely p = "1"%string).
Proof.
  intros Ho Hne Hok h d a.
  destruct (odds_based_priced m o Ho Hne Hok) as (Erun & Ph & Pd & Pa).
  fold h d a in Erun, Ph, Pd, Pa.
  destruct (implied_parts h d a Ph Pd Pa)
    as (x & y & z & Ep & _ & _ & _ & _ & M1 & M2 & M3 & M4 & M5 & M6).
  eexists. split; [rewrite Erun; exact Ep |].
  cbn [home_prob draw_prob away_prob].
  split; [intros; apply round3_mono; auto |].
  split; [intros; apply round3_mono; auto |].
  split; [intros; apply round3_mono; auto |].
  split; [intros; apply round3_mono; auto |].
  split; [intros; apply round3_mono; auto |].
  split; [intros; apply round3_mono; auto |].
  intros Hhd Hha.
  unfold most_likely, Py.max_by.
  cbn [Py.max_by_from fst snd home_prob draw_prob away_prob].
  assert (Py.round3 y <= Py.round3 x) by (apply round3_mono; auto).
  assert (Py.round3 z <= Py.round3 x) by (apply round3_mono; auto).
  destruct (ltb_spec (Py.round3 x) (Py.round3 y)); [exfalso; lra |].
  destruct (ltb_spec (Py.round3 x) (Py.round3 z)); [exfalso; lra |].
  reflexivity.
Qed.

Lemma sample_odds_nonempty : sample_odds <> ∅.
Proof.
  intros Heq.
  apply (f_equal (fun d : gmap string value => d !! "source"%string)) in Heq.
  vm_compute in Heq. discriminate Heq.
Qed.

Lemma lower_price_higher_probability_witness :
  odds sample_match = Some sample_odds /\ sample_odds <> ∅ /\
  listed_prices sample_odds /\
  price_of sample_odds "home_win" 2.0 == 2.10 /\
  price_of sample_odds "draw" 3.0 == 3.40 /\
  price_of sample_odds "away_win" 2.0 == 3.20 /\
  exists p,
    predict_match_odds_based sample_match = Ok p /\
    draw_prob p <= home_prob p /\ away_prob p <= home_prob p /\
    draw_prob p <= away_prob p /\ most_likely p = "1"%string.
Proof.
  assert (Hl : listed_prices sample_odds) by exact (proj2 sample_match_in_range).
  split; [reflexivity |]. split; [exact sample_odds_nonempty |].
  split; [exact Hl |].
  split; [reflexivity |]. split; [reflexivity |]. split; [reflexivity |].
  destruct (lower_price_higher_probability sample_match sample_odds eq_refl
              sample_odds_nonempty Hl)
    as (p & Ep & Hhd & _ & Hha & _ & _ & Had & Hpick).
  assert (Lhd : price_of sample_odds "home_win" 2.0
                <= price_of sample_odds "draw" 3.0)
    by (vm_compute; discriminate).
  assert (Lha : price_of sample_odds "home_win" 2.0
                <= price_of sample_odds "away_win" 2.0)
    by (vm_compute; discriminate).
  assert (Lad : price_of sample_odds "away_win" 2.0
                <= price_of sample_odds "draw" 3.0)
    by (vm_compute; discriminate).
  exists p. split; [exact Ep |].
  split; [exact (Hhd Lhd) |]. split; [exact (Hha Lha) |].
  split; [exact (Had Lad) | exact (Hpick Lhd Lha)].
Defined.

(** On a match in range the three confidences lie in [0,1], and the
    odds-based confidence is at least 0.667 when the odds block is
    present and not empty: the least implied probability is at most one
    third. *)
Theorem confidences_in_range (m : Match) :
  match_in_range m ->
  exists f o h,
    predict_match_form_based m = Ok f /\
    predict_match_odds_based m = Ok o /\
    predict_match_hybrid m = Ok h /\
    in_unit (confidence f) /\ in_unit (confidence o) /\
    in_unit (confidence h) /\
    (odds_falsy (odds m) = false -> 0.667 <= confidence o).
Proof.
  intros Hr. destruct (in_range_ok m Hr) as [Hf Ho].
  destruct Hr as [_ Hu].
  destruct (form_based_shape m Hf) as (fx & fy & fz & fc & Ef & _ & _ & _ & _ & Hfc).
  destruct (odds_based_shape m Ho) as (ox & oy & oz & oc & Eo & _ & _ & _ & _ & Hoc).
  eexists. eexists. eexists.
  split; [exact Ef |]. split; [exact Eo |].
  split; [exact (hybrid_unfold m _ _ Ef Eo) |].
  cbn [confidence hybrid_blend].
  pose proof (round3_unit fc Hfc) as Rf. pose proof (round3_unit oc Hoc) as Ro.
  split; [exact Rf |]. split; [exact Ro |]. split.
  - apply round3_unit. unfold in_unit in *.
    split; [apply Qle_shift_div_l; lra | apply Qle_shift_div_r; lra].
  - intros Hfalsy. unfold usable_odds in Hu.
    destruct (odds m) as [d |] eqn:Eodds; [| discriminate Hfalsy].
    cbn [odds_falsy] in Hfalsy. apply bool_decide_eq_false_1 in Hfalsy.
    destruct (odds_based_priced m d Eodds Hfalsy Hu) as (Erun & Ph & Pd & Pa).
    destruct (implied_parts _ _ _ Ph Pd Pa)
      as (x & y & z & Ep & _ & _ & _ & Hs & _).
    rewrite Erun, Ep in Eo. injection Eo as _ _ _ Ec.
    rewrite <- Ec.
    assert (Hcst : Py.round3 (2 # 3) == 0.667) by reflexivity.
    rewrite <- Hcst. apply round3_mono.
    destruct (min3_le x y z) as (L1 & L2 & L3). lra.
Qed.

Lemma confidences_in_range_witness :
  match_in_range sample_match /\
  odds_falsy (odds sample_match) = false /\
  exists f o h,
    predict_match_form_based sample_match = Ok f /\
    predict_match_odds_based sample_match = Ok o /\
    predict_match_hybrid sample_match = Ok h /\
    in_unit (confidence f) /\ in_unit (confidence o) /\
    in_unit (confidence h) /\ 0.667 <= confidence o.
Proof.
  assert (Hne : odds_falsy (odds sample_match) = false).
  { cbn [odds_falsy odds sample_match].
    apply bool_decide_eq_false_2. exact sample_odds_nonempty. }
  split; [exact sample_match_in_range |]. split; [exact Hne |].
  destruct (confidences_in_range sample_match sample_match_in_range)
    as (f & o & h & Ef & Eo & Eh & Cf & Co & Ch & Hlow).
  exists f, o, h.
  split; [exact Ef |]. split; [exact Eo |]. split; [exact Eh |].
  split; [exact Cf |]. split; [exact Co |]. split; [exact Ch |].
  exact (Hlow Hne).
Defined.

End OddsModelFacts.

(** ** Matches without odds *)

Section WithoutOdds.

Lemma blend_same (x : Q) :
  Py.round3 (0.6 * Py.round3 x + 0.4 * Py.round3 x) = Py.round3 x.
Proof.
  rewrite (round3_comp _ (Py.round3 x)) by lra. apply round3_idem.
Qed.

Lemma mean_same (c : Q) :
  Py.round3 ((Py.round3 c + Py.round3 c) / 2) = Py.round3 c.
Proof.
  rewrite (round3_comp _ (Py.round3 c)) by field. apply round3_idem.
Qed.

Lemma coincide_without_odds (m : Match) (f : Prediction) :
  odds_falsy (odds m) = true ->
  predict_match_form_based m = Ok f ->
  predict_match_odds_based m = Ok f /\ predict_match_hybrid m = Ok f.
Proof.
  intros Hfalsy Hf.
  assert (Ho : predict_match_odds_based m = Ok f).
  { unfold predict_match_odds_based. now rewrite Hfalsy. }
  split; [exact Ho |].
  rewrite (hybrid_unfold m f f Hf Ho).
  destruct (form_fields_rounded m f Hf) as (x & y & z & c & ->).
  unfold hybrid_blend. cbn [home_prob draw_prob away_prob confidence].
  now rewrite !blend_same, mean_same.
Qed.

Lemma coded_without_odds (m : Match) :
  coded_form m -> odds_falsy (odds m) = true ->
  exists f,
    predict_match_form_based m = Ok f /\
    predict_match_odds_based m = Ok f /\
    predict_match_hybrid m = Ok f /\
    draw_prob f == 0.091 /\
    (most_likely f = "1"%string \/ most_likely f = "2"%string).
Proof.
  intros Hc Hno. destruct (coded_form_parts m Hc) as (x & z & c & Hxz & E).
  destruct (coincide_without_odds m _ Hno E) as [Eo Eh].
  eexists. split; [exact E |]. split; [exact Eo |]. split; [exact Eh |].
  split; [reflexivity | exact (floor_pick x z _ Hxz)].
Qed.

(** On a match with coded histories whose odds block is missing or empty
    the three models return one and the same prediction, so every method
    selects the same symbol. *)
Theorem models_coincide_without_odds (m : Match) :
  coded_form m -> odds_falsy (odds m) = true ->
  exists f,
    predict_match_form_based m = Ok f /\
    predict_match_odds_based m = Ok f /\
    predict_match_hybrid m = Ok f /\
    forall method, get_match_prediction m method = Ok (most_likely f, f).
Proof.
  intros Hc Hno.
  destruct (coded_without_odds m Hc Hno) as (f & Ef & Eo & Eh & _).
  exists f. split; [exact Ef |]. split; [exact Eo |]. split; [exact Eh |].
  intros method. unfold get_match_prediction.
  destruct (String.eqb method "form_based");
    [| destruct (String.eqb method "odds_based")];
    rewrite ?Ef, ?Eo, ?Eh; reflexivity.
Qed.

Lemma empty_block_match_coded : coded_form empty_block_match.
Proof. exact (proj1 sample_match_in_range). Qed.

Lemma models_coincide_without_odds_witness :
  coded_form empty_block_match /\
  odds_falsy (odds empty_block_match) = true /\
  exists f,
    predict_match_form_based empty_block_match = Ok f /\
    predict_match_odds_based empty_block_match = Ok f /\
    predict_match_hybrid empty_block_match = Ok f /\
    forall method,
      get_match_prediction empty_block_match method = Ok (most_likely f, f).
Proof.
  split; [exact empty_block_match_coded |]. split; [reflexivity |].
  exact (models_coincide_without_odds empty_block_match
           empty_block_match_coded eq_refl).
Defined.

Lemma Forall2_agree {A B : Type} (P : A -> Prop) (R1 R2 : A -> B -> Prop)
    (l : list A) (k1 k2 : list B) :
  (forall a b1 b2, P a -> R1 a b1 -> R2 a b2 -> b1 = b2) ->
  Forall P l -> Forall2 R1 l k1 -> Forall2 R2 l k2 -> k1 = k2.
Proof.
  intros Hfun HP H1. revert k2.
  induction H1 as [| a b1 l k1 Hab _ IH]; intros k2 H2.
  - now inversion H2.
  - inversion H2 as [| a' b2 l' k2' Hab2 Hrest]; subst.
    inversion HP as [| a' l' Pa Pl]; subst.
    f_equal; [eapply Hfun; eauto | now apply IH].
Qed.

Lemma no_odds_picks (m : Match) :
  coded_form m -> odds_falsy (odds m) = true ->
  exists f,
    predict_match_form_based m = Ok f /\
    (most_likely f = "1"%string \/ most_likely f = "2"%string) /\
    (forall s, hybrid_pick m = Ok s -> s = most_likely f) /\
    (forall s, value_pick m = Ok s -> s = most_likely f) /\
    (forall s, conservative_pick m = Ok s -> s <> "X"%string).
Proof.
  intros Hc Hno.
  destruct (coded_without_odds m Hc Hno) as (f & Ef & Eo & Eh & Hd & Hpick).
  exists f. split; [exact Ef |]. split; [exact Hpick |].
  split; [| split].
  - intros s Hs. destruct (hybrid_pick_rule m s Hs) as (p & Hp & ->).
    rewrite Eh in Hp. now injection Hp as <-.
  - intros s Hs. destruct (value_pick_rule m s Hs) as (f' & o' & Ef' & Eo' & Hr).
    rewrite Ef in Ef'. injection Ef' as <-.
    rewrite Eo in Eo'. injection Eo' as <-.
    destruct Hr as (_ & R & _). now apply R.
  - intros s Hs. destruct (conservative_pick_rule m s Hs) as (p & Hp & Hr).
    rewrite Eh in Hp. injection Hp as <-.
    destruct Hr as (_ & R1 & R2).
    assert (Hle : draw_prob f <= 0.25)
      by (rewrite Hd; unfold Qle; simpl; lia).
    destruct (Qlt_le_dec (away_prob f) (home_prob f)) as [Hlt | Hge].
    + rewrite (R1 Hle Hlt). discriminate.
    + rewrite (R2 Hle Hge). discriminate.
Qed.

Lemma loop_never_draws (pick : Match -> result string)
    (matches : list Match) (combo : list string) :
  Forall (fun m => forall s, pick m = Ok s -> s <> "X"%string) matches ->
  Py.for_each pick matches = Ok combo ->
  ~ In "X"%string combo.
Proof.
  intros Hall Hrun. apply for_each_Forall2 in Hrun.
  induction Hrun as [| m s ms ss Hms _ IH].
  - intros [].
  - inversion Hall as [| m' ms' Hm Hrest]; subst.
    intros [E | Hin]; [exact (Hm s Hms E) | exact (IH Hrest Hin)].
Qed.

(** When every match has coded histories and no odds, the generator
    returns, no combination contains a draw, and the Hybrid and the Value
    combination are the same sequence. *)
Theorem no_odds_no_draws (matches : list Match) :
  Forall (fun m => coded_form m /\ odds_falsy (odds m) = true) matches ->
  exists hy co va,
    generate_stryktipset_combinations matches = Ok [hy; co; va] /\
    ~ In "X"%string (combination hy) /\
    ~ In "X"%string (combination co) /\
    ~ In "X"%string (combination va) /\
    combination hy = combination va.
Proof.
  intros Hno.
  assert (Hret : Forall models_return_on matches).
  { eapply Forall_impl; [exact Hno |]. intros m [Hc Hm].
    destruct (coded_without_odds m Hc Hm) as (f & Ef & Eo & _).
    split; eauto. }
  destruct (generator_total matches Hret) as [combos Hgen].
  destruct (generate_inv _ _ Hgen) as (hy & co & va & Hh & Hc & Hv & ->).
  eexists. eexists. eexists. split; [exact Hgen |].
  cbn [combination].
  assert (Hx : forall m s,
            coded_form m /\ odds_falsy (odds m) = true ->
            forall f, (most_likely f = "1"%string \/ most_likely f = "2"%string) ->
            s = most_likely f -> s <> "X"%string).
  { intros m s _ f [E | E] ->; rewrite E; discriminate. }
  split; [| split; [| split]].
  - eapply loop_never_draws; [| exact Hh].
    eapply Forall_impl; [exact Hno |]. intros m Hm s Hs.
    destruct (no_odds_picks m (proj1 Hm) (proj2 Hm)) as (f & _ & Hp & R & _).
    exact (Hx m s Hm f Hp (R s Hs)).
  - eapply loop_never_draws; [| exact Hc].
    eapply Forall_impl; [exact Hno |]. intros m Hm s Hs.
    destruct (no_odds_picks m (proj1 Hm) (proj2 Hm)) as (f & _ & _ & _ & _ & R).
    exact (R s Hs).
  - eapply loop_never_draws; [| exact Hv].
    eapply Forall_impl; [exact Hno |]. intros m Hm s Hs.
    destruct (no_odds_picks m (proj1 Hm) (proj2 Hm)) as (f & _ & Hp & _ & R & _).
    exact (Hx m s Hm f Hp (R s Hs)).
  - apply for_each_Forall2 in Hh. apply for_each_Forall2 in Hv.
    eapply (Forall2_agree _ _ _ matches hy va); [| exact Hno | exact Hh | exact Hv].
    intros m s1 s2 Hm H1 H2. cbv beta in H1, H2.
    destruct (no_odds_picks m (proj1 Hm) (proj2 Hm)) as (f & _ & _ & Rh & Rv & _).
    rewrite (Rh s1 H1), (Rv s2 H2). reflexivity.
Qed.

Lemma no_odds_no_draws_witness :
  Forall (fun m => coded_form m /\ odds_falsy (odds m) = true)
         [empty_block_match; plain_match] /\
  exists hy co va,
    generate_stryktipset_combinations [empty_block_match; plain_match]
      = Ok [hy; co; va] /\
    ~ In "X"%string (combination hy) /\
    ~ In "X"%string (combination co) /\
    ~ In "X"%string (combination va) /\
    combination hy = combination va.
Proof.
  assert (Hno : Forall (fun m => coded_form m /\ odds_falsy (odds m) = true)
                       [empty_block_match; plain_match]).
  { constructor; [split; [exact empty_block_match_coded | reflexivity] |].
    constructor; [split; [split; exact I | reflexivity] | constructor]. }
  split; [exact Hno |].
  exact (no_odds_no_draws [empty_block_match; plain_match] Hno).
Defined.

End WithoutOdds.

(** ** What the combinations hold, and where the generator fails *)

Section CombinationContents.

(** The Hybrid combination holds, match by match, the most likely symbol
    of the hybrid prediction; the Value combination holds the form
    model's symbol when the two single models disagree and the form
    confidence exceeds 0.3, and the odds model's symbol otherwise. *)
Theorem hybrid_and_value_contents (matches : list Match)
    (combos : list Combination) :
  generate_stryktipset_combinations matches = Ok combos ->
  exists hy va,
    combos !! 0%nat = Some hy /\ method hy = "Hybrid Prediction"%string /\
    combos !! 2%nat = Some va /\ method va = "Value Betting"%string /\
    Forall2 (fun m s =>
               exists p, predict_match_hybrid m = Ok p /\ s = most_likely p)
            matches (combination hy) /\
    Forall2 (fun m s =>
               exists f o,
                 predict_match_form_based m = Ok f /\
                 predict_match_odds_based m = Ok o /\ value_rule f o s)
            matches (combination va).
Proof.
  intros Hgen.
  destruct (generate_inv _ _ Hgen) as (hy & co & va & Hh & _ & Hv & ->).
  eexists. eexists.
  split; [reflexivity |]. split; [reflexivity |].
  split; [reflexivity |]. split; [reflexivity |].
  cbn [combination]. split.
  - apply for_each_Forall2 in Hh. eapply Forall2_impl; [exact Hh |].
    intros m s Hms. now apply hybrid_pick_rule.
  - apply for_each_Forall2 in Hv. eapply Forall2_impl; [exact Hv |].
    intros m s Hms. now apply value_pick_rule.
Qed.

Lemma hybrid_and_value_contents_witness :
  exists combos,
    generate_stryktipset_combinations [sample_match; level_match] = Ok combos /\
    exists hy va,
      combos !! 0%nat = Some hy /\ method hy = "Hybrid Prediction"%string /\
      combos !! 2%nat = Some va /\ method va = "Value Betting"%string /\
      Forall2 (fun m s =>
                 exists p, predict_match_hybrid m = Ok p /\ s = most_likely p)
              [sample_match; level_match] (combination hy) /\
      Forall2 (fun m s =>
                 exists f o,
                   predict_match_form_based m = Ok f /\
                   predict_match_odds_based m = Ok o /\ value_rule f o s)
              [sample_match; level_match] (combination va).
Proof.
  eexists. split; [vm_compute; reflexivity |].
  apply (hybrid_and_value_contents [sample_match; level_match]).
  vm_compute. reflexivity.
Defined.

(** When the generator raises, it raises what the hybrid model raises on
    the first match, in order, on which a single model fails; the matches
    before it are ones on which both single models return. *)
Theorem generator_first_failure (matches : list Match) (e : exn) :
  generate_stryktipset_combinations matches = Raise e ->
  exists before m after,
    matches = before ++ m :: after /\
    Forall models_return_on before /\
    ~ models_return_on m /\
    predict_match_hybrid m = Raise e.
Proof.
  intros Hgen.
  destruct (Py.for_each hybrid_pick matches) as [hy | e0] eqn:Eh.
  - exfalso.
    destruct (generator_total matches (hybrid_loop_defined _ _ Eh))
      as [combos Hc].
    rewrite Hc in Hgen. discriminate Hgen.
  - unfold generate_stryktipset_combinations in Hgen.
    rewrite Eh in Hgen. cbn [mbind result_bind Py.bind] in Hgen.
    injection Hgen as <-.
    destruct (for_each_raise _ _ _ Eh) as (l1 & x & l2 & -> & Hall & Hx).
    apply hybrid_pick_raise in Hx.
    exists l1, x, l2. split; [reflexivity |].
    split; [| split; [| exact Hx]].
    + eapply Forall_impl; [exact Hall |].
      intros m [s Hs]. apply hybrid_returns_iff.
      destruct (hybrid_pick_rule m s Hs) as (p & Hp & _). eauto.
    + intros Hm. apply hybrid_returns_iff in Hm as [p Hp].
      rewrite Hp in Hx. discriminate Hx.
Qed.

Lemma generator_first_failure_witness :
  generate_stryktipset_combinations [sample_match; six_game_match; level_match]
    = Raise TypeError /\
  exists before m after,
    [sample_match; six_game_match; level_match] = before ++ m :: after /\
    Forall models_return_on before /\
    ~ models_return_on m /\
    predict_match_hybrid m = Raise TypeError.
Proof.
  assert (E : generate_stryktipset_combinations
                [sample_match; six_game_match; level_match] = Raise TypeError)
    by (vm_compute; reflexivity).
  split; [exact E |].
  exact (generator_first_failure _ _ E).
Defined.

End CombinationContents.

(** ** Round number over a season *)

Section RoundNumberOrder.

Import Datetime.

(** Within one calendar year the round number never decreases with time:
    of two moments of the same year the later one has the round number
    of the earlier one or a higher one. *)
Theorem round_number_monotone (a b : datetime) :
  year a = year b -> (instant a <= instant b)%Z ->
  (Predictor.get_current_round_number a
   <= Predictor.get_current_round_number b)%Z.
Proof.
  intros Hy Hab. unfold Predictor.get_current_round_number. rewrite Hy.
  cbv zeta.
  set (start := plus_days (midnight (year b) 3 1)
                  ((5 - weekday (midnight (year b) 3 1)) mod 7)).
  destruct (Z.ltb_spec (instant a) start) as [Ha | Ha];
    destruct (Z.ltb_spec (instant b) start) as [Hb | Hb]; try lia.
  - assert (H0 : (0 <= delta_days (instant b) start / 7)%Z).
    { apply Z.div_pos; [| lia]. unfold delta_days, us_per_day.
      apply Z.div_pos; lia. }
    lia.
  - assert (Hd : (delta_days (instant a) start / 7
                  <= delta_days (instant b) start / 7)%Z).
    { apply Z.div_le_mono; [lia |]. unfold delta_days, us_per_day.
      apply Z.div_le_mono; lia. }
    lia.
Qed.

Lemma round_number_monotone_witness :
  year season_opening = year sample_now /\
  (instant season_opening <= instant sample_now)%Z /\
  Predictor.get_current_round_number season_opening = 1%Z /\
  Predictor.get_current_round_number sample_now = 2%Z /\
  (Predictor.get_current_round_number season_opening
   <= Predictor.get_current_round_number sample_now)%Z.
Proof.
  assert (Hab : (instant season_opening <= instant sample_now)%Z)
    by (vm_compute; discriminate).
  split; [reflexivity |]. split; [exact Hab |].
  split; [reflexivity |]. split; [reflexivity |].
  exact (round_number_monotone season_opening sample_now eq_refl Hab).
Defined.

End RoundNumberOrder.

(** ** Outcomes of the prediction run *)

Section RunOutcomes.

Import Engine.

Context {db : Type} `{Supabase db}.

Lemma load_cases (s : db) :
  (exists log, load_current_matches s = (log, []) /\
     ((exists e, select_matches s = Raise e) \/ select_matches s = Ok [])) \/
  (exists log m ms, load_current_matches s = (log, m :: ms) /\
     select_matches s = Ok (m :: ms)).
Proof.
  unfold load_current_matches.
  destruct (select_matches s) as [[| m ms] | e].
  - left. eexists. split; [reflexivity | now right].
  - right. do 3 eexists. split; reflexivity.
  - left. eexists. split; [reflexivity | left; eauto].
Qed.

Lemma store_predictions_cases (now : Datetime.datetime)
    (predictions : list Combination) (s : db) (log : list event) (s' : db)
    (r : result unit) :
  store_predictions now predictions s = (log, s', r) ->
  let current_round := get_current_round_number now in
  let records := prediction_records now current_round 0 predictions in
  (exists e, r = Raise e /\ s' = s /\
     delete_predictions current_round s = Raise e) \/
  (exists e s1, r = Raise e /\ s' = s1 /\
     delete_predictions current_round s = Ok s1 /\
     insert_predictions records s1 = Raise e) \/
  (exists s1 data, r = Ok () /\
     delete_predictions current_round s = Ok s1 /\
     insert_predictions records s1 = Ok (s', data)).
Proof.
  intros Hrun current_round records. unfold store_predictions in Hrun.
  cbv zeta in Hrun. fold current_round in Hrun.
  destruct (delete_predictions current_round s) as [s1 | e] eqn:Ed.
  - fold records in Hrun.
    destruct (insert_predictions records s1) as [[s2 data] | e] eqn:Ei.
    + injection Hrun as _ <- <-. right. right. eauto.
    + injection Hrun as _ <- <-. right. left. exists e, s1. auto.
  - injection Hrun as _ <- <-. left. eauto.
Qed.

(** The run returns without predictions exactly when the read raises or
    answers with no rows, and then the store is left as it was: nothing
    is deleted and nothing is written. *)
Theorem run_returns_none_iff (now : Datetime.datetime) (s : db) :
  (snd (run_prediction_engine now s) = Ok None <->
   (exists e, select_matches s = Raise e) \/ select_matches s = Ok []) /\
  (snd (run_prediction_engine now s) = Ok None ->
   snd (fst (run_prediction_engine now s)) = s).
Proof.
  unfold run_prediction_engine.
  destruct (load_cases s) as [(log & El & Hsel) | (log & m & ms & El & Hsel)];
    rewrite El.
  - cbn [fst snd]. split; [split; auto | auto].
  - destruct (generate_stryktipset_combinations (m :: ms)) as [preds | e].
    + destruct (store_predictions now preds s) as [[storing s'] [u | e]];
        cbn [fst snd]; (split; [split |]; try discriminate);
        intros [[e' He'] | He']; rewrite Hsel in He'; discriminate.
    + cbn [fst snd]. split; [split |]; try discriminate.
      intros [[e' He'] | He']; rewrite Hsel in He'; discriminate.
Qed.

(** When the run raises, the read had answered with at least one row,
    and the error is that of the generator (the store is then untouched),
    of the delete (untouched as well) or of the insert (the round's old
    rows are then already deleted). *)
Theorem run_raise_origin (now : Datetime.datetime) (s s' : db)
    (log : list event) (e : exn) :
  run_prediction_engine now s = (log, s', Raise e) ->
  let current_round := get_current_round_number now in
  exists data,
    select_matches s = Ok data /\ data <> [] /\
    ((generate_stryktipset_combinations data = Raise e /\ s' = s) \/
     (exists predictions,
        generate_stryktipset_combinations data = Ok predictions /\
        ((delete_predictions current_round s = Raise e /\ s' = s) \/
         (exists s1,
            delete_predictions current_round s = Ok s1 /\ s' = s1 /\
            insert_predictions
              (prediction_records now current_round 0 predictions) s1
              = Raise e)))).
Proof.
  intros Hrun current_round. unfold run_prediction_engine in Hrun.
  destruct (load_cases s) as [(l & El & Hsel) | (l & m & ms & El & Hsel)];
    rewrite El in Hrun; [discriminate |].
  exists (m :: ms). split; [exact Hsel |]. split; [discriminate |].
  destruct (generate_stryktipset_combinations (m :: ms)) as [preds | e0].
  - right. exists preds. split; [reflexivity |].
    destruct (store_predictions now preds s) as [[storing s2] r] eqn:Es.
    destruct r as [u | e1]; [discriminate |].
    injection Hrun as _ <- <-.
    destruct (store_predictions_cases _ _ _ _ _ _ Es)
      as [(e2 & E2 & -> & Hd) | [(e2 & s1 & E2 & -> & Hd & Hi) | (s1 & data & E2 & _)]];
      try discriminate; injection E2 as <-.
    + left. auto.
    + right. exists s1. auto.
  - injection Hrun as _ <- <-. left. auto.
Qed.

(** When the run returns predictions, the read answered with at least
    one row, the predictions are what the generator returns on those
    rows, and they reached the store by one delete of the current round
    followed by one insert of the records built from them. *)
Theorem run_success_trace (now : Datetime.datetime) (s s' : db)
    (log : list event) (predictions : list Combination) :
  run_prediction_engine now s = (log, s', Ok (Some predictions)) ->
  let current_round := get_current_round_number now in
  exists data s1 returned,
    select_matches s = Ok data /\ data <> [] /\
    generate_stryktipset_combinations data = Ok predictions /\
    delete_predictions current_round s = Ok s1 /\
    insert_predictions (prediction_records now current_round 0 predictions) s1
      = Ok (s', returned) /\
    length predictions = 3%nat.
Proof.
  intros Hrun current_round. unfold run_prediction_engine in Hrun.
  destruct (load_cases s) as [(l & El & Hsel) | (l & m & ms & El & Hsel)];
    rewrite El in Hrun; [discriminate |].
  destruct (generate_stryktipset_combinations (m :: ms)) as [preds | e0] eqn:Eg;
    [| discriminate].
  destruct (store_predictions now preds s) as [[storing s2] r] eqn:Es.
  destruct r as [u | e1]; [| discriminate].
  injection Hrun as _ <- <-.
  destruct (store_predictions_cases _ _ _ _ _ _ Es)
    as [(e2 & E2 & _) | [(e2 & s1 & E2 & _) | (s1 & data & _ & Hd & Hi)]];
    try discriminate.
  exists (m :: ms), s1, data.
  split; [exact Hsel |]. split; [discriminate |]. split; [exact Eg |].
  split; [exact Hd |]. split; [exact Hi |].
  destruct (generate_inv _ _ Eg) as (hy & co & va & _ & _ & _ & ->).
  reflexivity.
Qed.

End RunOutcomes.

Section RunOutcomesAtStores.

Import Engine.

Lemma run_returns_none_iff_witness :
  select_matches empty_store = Ok [] /\
  snd (run_prediction_engine sample_now empty_store) = Ok None /\
  snd (fst (run_prediction_engine sample_now empty_store)) = empty_store.
Proof.
  destruct (run_returns_none_iff sample_now empty_store) as [Hiff Hsame].
  assert (Hnone : snd (run_prediction_engine sample_now empty_store) = Ok None).
  { apply Hiff. right. reflexivity. }
  split; [reflexivity |]. split; [exact Hnone | exact (Hsame Hnone)].
Defined.

Lemma run_raise_origin_witness :
  exists log s',
    run_prediction_engine sample_now unwritable_store
      = (log, s', Raise (StoreError 503)) /\
    exists data,
      select_matches unwritable_store = Ok data /\ data <> [] /\
      ((generate_stryktipset_combinations data = Raise (StoreError 503) /\
        s' = unwritable_store) \/
       (exists predictions,
          generate_stryktipset_combinations data = Ok predictions /\
          ((delete_predictions (get_current_round_number sample_now)
              unwritable_store = Raise (StoreError 503) /\
            s' = unwritable_store) \/
           (exists s1,
              delete_predictions (get_current_round_number sample_now)
                unwritable_store = Ok s1 /\ s' = s1 /\
              insert_predictions
                (prediction_records sample_now
                   (get_current_round_number sample_now) 0 predictions) s1
                = Raise (StoreError 503))))).
Proof.
  eexists. eexists. split; [vm_compute; reflexivity |].
  eapply (run_raise_origin sample_now unwritable_store).
  vm_compute. reflexivity.
Defined.

Lemma run_success_trace_witness :
  exists log s' predictions,
    run_prediction_engine sample_now working_store
      = (log, s', Ok (Some predictions)) /\
    exists data s1 returned,
      select_matches working_store = Ok data /\ data <> [] /\
      generate_stryktipset_combinations data = Ok predictions /\
      delete_predictions (get_current_round_number sample_now) working_store
        = Ok s1 /\
      insert_predictions
        (prediction_records sample_now (get_current_round_number sample_now)
           0 predictions) s1
        = Ok (s', returned) /\
      length predictions = 3%nat.
Proof.
  eexists. eexists. eexists. split; [vm_compute; reflexivity |].
  eapply (run_success_trace sample_now working_store).
  vm_compute. reflexivity.
Defined.

End RunOutcomesAtStores.

(** ** The rows written to the predictions table *)

Section StoredRecords.

Import Engine.

Lemma string_length_append (s1 s2 : string) :
  String.length (s1 ++ s2) = (String.length s1 + String.length s2)%nat.
Proof. induction s1 as [| c s1 IH]; simpl; [reflexivity | now rewrite IH]. Qed.

Lemma concat_symbols_length (combo : list string) :
  Forall (fun s => In s symbols) combo ->
  String.length (String.concat "" combo) = length combo.
Proof.
  induction 1 as [| s rest Hs _ IH]; [reflexivity |].
  destruct rest as [| s' rest'].
  - simpl in Hs. destruct Hs as [<- | [<- | [<- | []]]]; reflexivity.
  - change (String.concat "" (s :: s' :: rest'))
      with (s ++ "" ++ String.concat "" (s' :: rest'))%string.
    rewrite !string_length_append, IH.
    simpl in Hs. destruct Hs as [<- | [<- | [<- | []]]]; reflexivity.
Qed.

Lemma prediction_records_round (now : Datetime.datetime) (r i : Z)
    (predictions : list Combination) :
  Forall (fun rec => round_number rec = r)
         (prediction_records now r i predictions).
Proof.
  revert i. induction predictions as [| p ps IH]; intros i; simpl;
    constructor; auto.
Qed.

(** The records built from what the generator returns are three, carry
    the orders 1, 2, 3, the methods and the confidence tiers in
    generation order, all bear the current round, and each combination
    is written as a string with one character per match. *)
Theorem stored_rows_shape (now : Datetime.datetime) (matches : list Match)
    (predictions : list Combination) :
  generate_stryktipset_combinations matches = Ok predictions ->
  let current_round := get_current_round_number now in
  let records := prediction_records now current_round 0 predictions in
  map prediction_order records = [1; 2; 3]%Z /\
  map rec_method records =
    ["Hybrid Prediction"; "Conservative"; "Value Betting"]%string /\
  map rec_confidence records = ["Medium"; "High"; "Low"]%string /\
  Forall (fun rec =>
            round_number rec = current_round /\
            String.length (rec_combination rec) = length matches) records.
Proof.
  intros Hgen current_round records.
  destruct (generate_inv _ _ Hgen) as (hy & co & va & Hh & Hc & Hv & ->).
  split; [reflexivity |]. split; [reflexivity |]. split; [reflexivity |].
  destruct (picked_symbols _ _ _ hybrid_pick_symbol Hh) as [Lh Sh].
  destruct (picked_symbols _ _ _ conservative_pick_symbol Hc) as [Lc Sc].
  destruct (picked_symbols _ _ _ value_pick_symbol Hv) as [Lv Sv].
  unfold records. cbn [prediction_records combination].
  constructor; [split; [reflexivity |]; cbn [rec_combination];
                rewrite concat_symbols_length by assumption; assumption |].
  constructor; [split; [reflexivity |]; cbn [rec_combination];
                rewrite concat_symbols_length by assumption; assumption |].
  constructor; [split; [reflexivity |]; cbn [rec_combination];
                rewrite concat_symbols_length by assumption; assumption |].
  constructor.
Qed.

Lemma stored_rows_shape_witness :
  exists predictions,
    generate_stryktipset_combinations [sample_match; level_match]
      = Ok predictions /\
    let records := prediction_records sample_now
                     (get_current_round_number sample_now) 0 predictions in
    map prediction_order records = [1; 2; 3]%Z /\
    map rec_method records =
      ["Hybrid Prediction"; "Conservative"; "Value Betting"]%string /\
    map rec_confidence records = ["Medium"; "High"; "Low"]%string /\
    Forall (fun rec =>
              round_number rec = get_current_round_number sample_now /\
              String.length (rec_combination rec) = 2%nat) records.
Proof.
  eexists. split; [vm_compute; reflexivity |].
  apply (stored_rows_shape sample_now [sample_match; level_match]).
  vm_compute. reflexivity.
Defined.

End StoredRecords.

Section RoundReplacement.

Import Engine.

Context {db : Type} `{Supabase db}.

(** The rows a store holds, and what a delete and an insert that succeed
    do to them. *)
Variable rows : db -> list PredictionRecord.

Hypothesis delete_removes_round :
  forall (r : Z) (s s1 : db),
    delete_predictions r s = Ok s1 ->
    rows s1 = filter (fun rec => round_number rec <> r) (rows s).

Hypothesis insert_appends :
  forall (records returned : list PredictionRecord) (s s2 : db),
    insert_predictions records s = Ok (s2, returned) ->
    rows s2 = rows s ++ records.

Lemma store_predictions_ok (now : Datetime.datetime)
    (predictions : list Combination) (s s' : db) (log : list event) :
  store_predictions now predictions s = (log, s', Ok ()) ->
  rows s' =
    filter (fun rec => round_number rec <> get_current_round_number now)
           (rows s)
    ++ prediction_records now (get_current_round_number now) 0 predictions.
Proof.
  unfold store_predictions. cbv zeta.
  destruct (delete_predictions (get_current_round_number now) s)
    as [s1 | e] eqn:Ed; [| discriminate].
  destruct (insert_predictions _ s1) as [[s2 data] | e] eqn:Ei;
    [| discriminate].
  intros [= _ <-].
  rewrite (insert_appends _ _ _ _ Ei), (delete_removes_round _ _ _ Ed).
  reflexivity.
Qed.

Lemma records_all_of_round (now : Datetime.datetime) (r : Z)
    (predictions : list Combination) :
  filter (fun rec => round_number rec <> r)
         (prediction_records now r 0 predictions) = [] /\
  filter (fun rec => round_number rec = r)
         (prediction_records now r 0 predictions)
    = prediction_records now r 0 predictions.
Proof.
  pose proof (prediction_records_round now r 0 predictions) as Hall.
  induction Hall as [| rec recs Hr _ [IH1 IH2]]; [split; reflexivity |].
  split.
  - rewrite (filter_cons_False (fun x => round_number x <> r))
      by (intros Hne; contradiction).
    exact IH1.
  - rewrite (filter_cons_True (fun x => round_number x = r)) by exact Hr.
    now rewrite IH2.
Qed.

Lemma filter_round_disjoint (r : Z) (l : list PredictionRecord) :
  filter (fun rec => round_number rec = r)
         (filter (fun rec => round_number rec <> r) l) = [].
Proof.
  induction l as [| rec l IH]; [reflexivity |].
  destruct (decide (round_number rec <> r)) as [Hne | Heq].
  - rewrite (filter_cons_True (fun x => round_number x <> r)) by exact Hne.
    rewrite (filter_cons_False (fun x => round_number x = r)) by exact Hne.
    exact IH.
  - rewrite (filter_cons_False (fun x => round_number x <> r)) by exact Heq.
    exact IH.
Qed.

(** On a store whose delete removes the rows of the given round and
    whose insert appends, a store of predictions that succeeds replaces
    the rows of the current round by the new records and keeps the rows
    of every other round; storing the same predictions again at the same
    time changes nothing. *)
Theorem store_replaces_round (now : Datetime.datetime)
    (predictions : list Combination) (s s' : db) (log : list event) :
  store_predictions now predictions s = (log, s', Ok ()) ->
  let current_round := get_current_round_number now in
  let records := prediction_records now current_round 0 predictions in
  rows s' =
    filter (fun rec => round_number rec <> current_round) (rows s) ++ records /\
  filter (fun rec => round_number rec = current_round) (rows s') = records /\
  filter (fun rec => round_number rec <> current_round) (rows s') =
    filter (fun rec => round_number rec <> current_round) (rows s) /\
  forall log2 s'',
    store_predictions now predictions s' = (log2, s'', Ok ()) ->
    rows s'' = rows s'.
Proof.
  intros Hrun current_round records.
  destruct (records_all_of_round now current_round predictions) as [Rne Req].
  fold records in Rne, Req.
  pose proof (store_predictions_ok now predictions s s' log Hrun) as E1.
  fold current_round in E1. fold records in E1.
  assert (Ekeep : filter (fun rec => round_number rec <> current_round) (rows s')
                  = filter (fun rec => round_number rec <> current_round) (rows s)).
  { rewrite E1, filter_app, Rne, app_nil_r.
    apply list_filter_filter_l. auto. }
  split; [exact E1 |]. split; [| split; [exact Ekeep |]].
  - rewrite E1, filter_app, Req. now rewrite filter_round_disjoint.
  - intros log2 s'' Hrun2.
    pose proof (store_predictions_ok now predictions s' s'' log2 Hrun2) as E2.
    fold current_round in E2. fold records in E2.
    rewrite E2, Ekeep. symmetry. exact E1.
Qed.

End RoundReplacement.

Section RoundReplacementInMemory.

Import Engine.

Lemma mem_delete_removes_round (r : Z) (s s1 : MemDb) :
  delete_predictions r s = Ok s1 ->
  predictions_rows s1 =
    filter (fun rec => round_number rec <> r) (predictions_rows s).
Proof.
  cbn [delete_predictions mem_supabase].
  destruct (write_fault s); [discriminate |]. now intros [= <-].
Qed.

Lemma mem_insert_appends (records returned : list PredictionRecord)
    (s s2 : MemDb) :
  insert_predictions records s = Ok (s2, returned) ->
  predictions_rows s2 = predictions_rows s ++ records.
Proof.
  cbn [insert_predictions mem_supabase].
  destruct (write_fault s); [discriminate |]. now intros [= <- _].
Qed.

(** The sample store after one run holds the three rows of round 2; a
    second run at the same time leaves exactly those. *)
Lemma store_replaces_round_witness :
  exists predictions log s',
    generate_stryktipset_combinations [sample_match; level_match]
      = Ok predictions /\
    store_predictions sample_now predictions working_store = (log, s', Ok ()) /\
    predictions_rows s' =
      prediction_records sample_now 2 0 predictions /\
    forall log2 s'',
      store_predictions sample_now predictions s' = (log2, s'', Ok ()) ->
      predictions_rows s'' = predictions_rows s'.
Proof.
  eexists. eexists. eexists.
  split; [vm_compute; reflexivity |].
  assert (Hrun : forall p l t,
            store_predictions sample_now p working_store = (l, t, Ok ()) ->
            predictions_rows t = prediction_records sample_now 2 0 p /\
            forall log2 s'',
              store_predictions sample_now p t = (log2, s'', Ok ()) ->
              predictions_rows s'' = predictions_rows t).
  { intros p l t Ht.
    destruct (store_replaces_round predictions_rows mem_delete_removes_round
                mem_insert_appends sample_now p working_store t l Ht)
      as (E1 & _ & _ & Hagain).
    split; [exact E1 | exact Hagain]. }
  split; [vm_compute; reflexivity |].
  eapply Hrun. vm_compute. reflexivity.
Defined.

End RoundReplacementInMemory.

(** ** Client construction *)

Section ClientConstruction.

Import SupabaseClient.

Context {Client : Type}.
Variable create_client : string -> string -> Client + error.

Lemma falsy_false (v : option string) :
  falsy v = false <-> exists s, v = Some s /\ s <> ""%string.
Proof.
  destruct v as [s |]; simpl.
  - rewrite bool_decide_eq_false. split.
    + intros Hs. eauto.
    + intros (s' & [= <-] & Hs). exact Hs.
  - split; [discriminate | intros (s & Hs & _); discriminate].
Qed.

Lemma init_key (environ : gmap string string) (b : bool) :
  (if b then getenv environ "SUPABASE_SERVICE_KEY"
   else getenv environ "SUPABASE_ANON_KEY") = environ !! key_variable b.
Proof. now destruct b. Qed.

(** A client is handed out exactly when the address and the key in use
    are both set and not empty and the client library accepts the two;
    the client is then the one the library made from them. *)
Theorem client_requirements (environ : gmap string string)
    (use_service_key : bool) (client : Client) :
  get_supabase_client create_client environ use_service_key = inl client <->
  exists u k,
    environ !! "SUPABASE_URL"%string = Some u /\ u <> ""%string /\
    environ !! key_variable use_service_key = Some k /\ k <> ""%string /\
    create_client u k = inl client.
Proof.
  unfold get_supabase_client, init. rewrite init_key. unfold getenv.
  split.
  - destruct (falsy (environ !! "SUPABASE_URL"%string)) eqn:Eu; [discriminate |].
    destruct (falsy (environ !! key_variable use_service_key)) eqn:Ek;
      [discriminate |].
    apply falsy_false in Eu as (u & Eu & Hu).
    apply falsy_false in Ek as (k & Ek & Hk).
    rewrite Eu, Ek. cbn [from_option id].
    destruct (create_client u k) as [c | e] eqn:Ec; [| discriminate].
    intros [= <-]. exists u, k. auto.
  - intros (u & k & Eu & Hu & Ek & Hk & Ec).
    rewrite Eu, Ek. cbn [falsy from_option id].
    rewrite !bool_decide_eq_false_2 by assumption.
    now rewrite Ec.
Qed.

(** A missing or empty address is reported first, whatever the keys are;
    with the address set, a missing or empty key is reported under the
    name of the key in use; in both cases the client library is not
    called: the result does not depend on it. *)
Theorem missing_configuration (environ : gmap string string)
    (use_service_key : bool) :
  (falsy (environ !! "SUPABASE_URL"%string) = true ->
   get_supabase_client create_client environ use_service_key =
     inr (ValueError "SUPABASE_URL environment variable is required")) /\
  (falsy (environ !! "SUPABASE_URL"%string) = false ->
   falsy (environ !! key_variable use_service_key) = true ->
   get_supabase_client create_client environ use_service_key =
     inr (ValueError
            (key_variable use_service_key
             ++ " environment variable is required"))).
Proof.
  unfold get_supabase_client, init. rewrite init_key. unfold getenv.
  split.
  - intros ->. reflexivity.
  - intros -> ->. now destruct use_service_key.
Qed.

(** The backend client does not read the anonymous key and the frontend
    client does not read the service key: setting, changing or unsetting
    the other key changes nothing. *)
Theorem other_key_ignored (environ : gmap string string) (v : option string) :
  get_backend_client create_client
      (partial_alter (fun _ => v) "SUPABASE_ANON_KEY"%string environ)
    = get_backend_client create_client environ /\
  get_frontend_client create_client
      (partial_alter (fun _ => v) "SUPABASE_SERVICE_KEY"%string environ)
    = get_frontend_client create_client environ.
Proof.
  unfold get_backend_client, get_frontend_client, get_supabase_client, init,
    getenv.
  rewrite !lookup_partial_alter_ne by discriminate. split; reflexivity.
Qed.

End ClientConstruction.

Section ClientConstructionAtSamples.

Import SupabaseClient.

Lemma client_requirements_witness :
  get_supabase_client echo_client backend_environ true
    = inl ("https://example.supabase.co", "service-key")%string /\
  exists u k,
    backend_environ !! "SUPABASE_URL"%string = Some u /\ u <> ""%string /\
    backend_environ !! key_variable true = Some k /\ k <> ""%string /\
    echo_client u k = inl ("https://example.supabase.co", "service-key")%string.
Proof.
  assert (E : get_supabase_client echo_client backend_environ true
              = inl ("https://example.supabase.co", "service-key")%string)
    by (vm_compute; reflexivity).
  split; [exact E |].
  exact (proj1 (client_requirements echo_client backend_environ true _) E).
Defined.

(** The sample environment has no anonymous key: the frontend client is
    refused under that name. *)
Lemma missing_configuration_witness :
  falsy (backend_environ !! "SUPABASE_URL"%string) = false /\
  falsy (backend_environ !! key_variable false) = true /\
  get_supabase_client echo_client backend_environ false =
    inr (ValueError "SUPABASE_ANON_KEY environment variable is required").
Proof.
  assert (Hu : falsy (backend_environ !! "SUPABASE_URL"%string) = false)
    by (vm_compute; reflexivity).
  assert (Hk : falsy (backend_environ !! key_variable false) = true)
    by (vm_compute; reflexivity).
  split; [exact Hu |]. split; [exact Hk |].
  exact (proj2 (missing_configuration echo_client backend_environ false) Hu Hk).
Defined.

End ClientConstructionAtSamples.

(** ** The weekly analysis and what it hands to the predictor *)

Section WeeklyAnalysis.

Import Assembler.

Variable isoformat : Datetime.datetime -> string.
Context {db : Type} `{MatchesTable db}.

Lemma store_matches_cases (now : Datetime.datetime) (matches_data : list Row)
    (s s' : db) (log : list event) (r : result unit) :
  store_matches_data now matches_data s = (log, s', r) ->
  let current_round := DataProcessor.get_current_round_number now in
  (exists e, r = Raise e /\ s' = s /\
     delete_matches current_round s = Raise e) \/
  (exists e s1, r = Raise e /\ s' = s1 /\
     delete_matches current_round s = Ok s1 /\
     insert_matches matches_data s1 = Raise e) \/
  (exists s1 data, r = Ok () /\
     delete_matches current_round s = Ok s1 /\
     insert_matches matches_data s1 = Ok (s', data)).
Proof.
  intros Hrun current_round. unfold store_matches_data in Hrun.
  cbv zeta in Hrun. fold current_round in Hrun.
  destruct (delete_matches current_round s) as [s1 | e] eqn:Ed.
  - destruct (insert_matches matches_data s1) as [[s2 data] | e] eqn:Ei.
    + injection Hrun as _ <- <-. right. right. eauto.
    + injection Hrun as _ <- <-. right. left. exists e, s1. auto.
  - injection Hrun as _ <- <-. left. eauto.
Qed.

Lemma run_weekly_unfold (now : Datetime.datetime) (s : db) :
  exists prefix storing s' r,
    store_matches_data now (assembled_rows isoformat now) s = (storing, s', r) /\
    run_weekly_analysis isoformat now s =
      match r with
      | Raise e =>
          (prefix ++ storing ++ [ErrorDuringAnalysis e], s', Raise e)
      | Ok _ =>
          (prefix ++ storing ++ [AnalysisCompleted], s',
           Ok (assembled_rows isoformat now))
      end.
Proof.
  unfold run_weekly_analysis.
  change (fetch_current_matches now)
    with ([FetchingMatches; FoundMatches 2], snd (fetch_current_matches now)).
  cbv iota beta.
  change (fetch_betting_odds isoformat now (snd (fetch_current_matches now)))
    with ([FetchingOdds; OddsAdded],
          snd (fetch_betting_odds isoformat now (snd (fetch_current_matches now)))).
  cbv iota beta.
  destruct (add_histories _) as [log_history rows] eqn:Eh.
  assert (Erows : assembled_rows isoformat now = rows).
  { unfold assembled_rows. now rewrite Eh. }
  rewrite Erows.
  destruct (store_matches_data now rows s) as [[storing s'] r].
  exists ([StartingAnalysis; AnalysisDate now] ++ [FetchingMatches; FoundMatches 2]
          ++ [FetchingOdds; OddsAdded] ++ log_history), storing, s', r.
  split; [reflexivity |].
  destruct r; rewrite <- !app_assoc; reflexivity.
Qed.

(** The weekly analysis has no outcome of its own: it returns the
    assembled rows exactly when the delete of the current round and the
    insert of those rows both succeed, and it raises the store's error
    when either fails; after a failed insert the round's old rows stay
    deleted. *)
Theorem weekly_analysis_outcomes (now : Datetime.datetime) (s s' : db)
    (log : list event) (r : result (list Row)) :
  run_weekly_analysis isoformat now s = (log, s', r) ->
  let current_round := DataProcessor.get_current_round_number now in
  (exists e, r = Raise e /\ s' = s /\
     delete_matches current_round s = Raise e) \/
  (exists e s1, r = Raise e /\ s' = s1 /\
     delete_matches current_round s = Ok s1 /\
     insert_matches (assembled_rows isoformat now) s1 = Raise e) \/
  (exists s1 data, r = Ok (assembled_rows isoformat now) /\
     delete_matches current_round s = Ok s1 /\
     insert_matches (assembled_rows isoformat now) s1 = Ok (s', data)).
Proof.
  intros Hrun current_round.
  destruct (run_weekly_unfold now s) as (prefix & storing & s2 & r2 & Es & Er).
  rewrite Er in Hrun.
  destruct (store_matches_cases _ _ _ _ _ _ Es)
    as [(e & -> & -> & Hd) | [(e & s1 & -> & -> & Hd & Hi) | (s1 & data & -> & Hd & Hi)]];
    injection Hrun as _ <- <-.
  - left. eauto.
  - right. left. exists e, s1. auto.
  - right. right. eauto.
Qed.

Lemma sample_block_prices (now : Datetime.datetime) :
  sample_odds_block isoformat now !! "home_win"%string = Some (VNum 2.10) /\
  sample_odds_block isoformat now !! "draw"%string = Some (VNum 3.40) /\
  sample_odds_block isoformat now !! "away_win"%string = Some (VNum 3.20).
Proof. split; [| split]; vm_compute; reflexivity. Qed.

Lemma assembled_row_in_range (now : Datetime.datetime) (m : Row)
    (home away : string) :
  home_team_history m = Some (snd (fetch_historical_data home 10)) ->
  away_team_history m = Some (snd (fetch_historical_data away 10)) ->
  odds m = Some (sample_odds_block isoformat now) ->
  match_in_range (to_match m).
Proof.
  intros Hh Ha Ho. unfold match_in_range, coded_form, usable_odds, to_match.
  cbn [Predictor.home_team_history Predictor.away_team_history Predictor.odds].
  rewrite Hh, Ha, Ho.
  assert (Hc : forall t, coded_history
                           (engine_history (Some (snd (fetch_historical_data t 10))))).
  { intros t. cbn. split; [lia |].
    assert (H0 : result_code 0) by (left; reflexivity).
    assert (H1 : result_code 1) by (right; right; reflexivity).
    constructor; [exact H1 |]. constructor; [exact H1 |].
    constructor; [exact H0 |]. constructor; [exact H1 |].
    constructor; [exact H0 |]. constructor. }
  split; [split; apply Hc |].
  destruct (sample_block_prices now) as (E1 & E2 & E3).
  unfold listed_prices, listed_price. rewrite E1, E2, E3.
  split; [| split]; split; unfold Qle; simpl; lia.
Qed.

Lemma assembled_rows_in_range (now : Datetime.datetime) :
  Forall match_in_range (map to_match (assembled_rows isoformat now)).
Proof.
  constructor; [eapply assembled_row_in_range; reflexivity |].
  constructor; [eapply assembled_row_in_range; reflexivity |].
  constructor.
Qed.

(** The two rows that the weekly analysis assembles carry the current
    round; read as matches they are in range, all three models return on
    them, and the generator returns three combinations of two symbols,
    whatever the time of the run and the rendering of the timestamp. *)
Theorem assembled_rows_feed_generator (now : Datetime.datetime) :
  length (assembled_rows isoformat now) = 2%nat /\
  Forall (fun m => round_number m = DataProcessor.get_current_round_number now)
         (assembled_rows isoformat now) /\
  Forall match_in_range (map to_match (assembled_rows isoformat now)) /\
  exists combos,
    generate_stryktipset_combinations
      (map to_match (assembled_rows isoformat now)) = Ok combos /\
    length combos = 3%nat /\
    Forall (fun c => length (combination c) = 2%nat) combos.
Proof.
  split; [reflexivity |].
  split; [constructor; [reflexivity |]; constructor; [reflexivity |];
          constructor |].
  pose proof (assembled_rows_in_range now) as Hr.
  split; [exact Hr |].
  assert (Hret : Forall models_return_on
                   (map to_match (assembled_rows isoformat now))).
  { eapply Forall_impl; [exact Hr |]. exact in_range_models_return. }
  destruct (generator_total _ Hret) as [combos Hgen].
  exists combos. split; [exact Hgen |].
  destruct (generate_inv _ _ Hgen) as (hy & co & va & Hh & Hc & Hv & ->).
  split; [reflexivity |].
  apply for_each_Forall2 in Hh, Hc, Hv.
  apply Forall2_length in Hh, Hc, Hv.
  constructor; [cbn [combination]; now rewrite <- Hh |].
  constructor; [cbn [combination]; now rewrite <- Hc |].
  constructor; [cbn [combination]; now rewrite <- Hv |].
  constructor.
Qed.

End WeeklyAnalysis.

Section WeeklyAnalysisAtTables.

Import Assembler.

Lemma weekly_analysis_outcomes_witness :
  (exists log s',
     run_weekly_analysis sample_isoformat sample_now working_table
       = (log, s', Ok (assembled_rows sample_isoformat sample_now)) /\
     table_rows s' = assembled_rows sample_isoformat sample_now) /\
  (exists log,
     run_weekly_analysis sample_isoformat sample_now refusing_table
       = (log, refusing_table, Raise (StoreError 503)) /\
     delete_matches (DataProcessor.get_current_round_number sample_now)
       refusing_table = Raise (StoreError 503)).
Proof.
  split.
  - destruct (run_weekly_analysis sample_isoformat sample_now working_table)
      as [[log s'] r] eqn:Erun.
    destruct (weekly_analysis_outcomes sample_isoformat sample_now
                working_table s' log r Erun)
      as [(e & _ & _ & Hd) | [(e & s1 & _ & _ & Hd & Hi) | (s1 & data & -> & Hd & Hi)]].
    + discriminate Hd.
    + injection Hd as <-. discriminate Hi.
    + exists log, s'. split; [reflexivity |].
      injection Hd as <-. injection Hi as <- _. reflexivity.
  - destruct (run_weekly_analysis sample_isoformat sample_now refusing_table)
      as [[log s'] r] eqn:Erun.
    destruct (weekly_analysis_outcomes sample_isoformat sample_now
                refusing_table s' log r Erun)
      as [(e & -> & -> & Hd) | [(e & s1 & _ & _ & Hd & _) | (s1 & data & _ & Hd & _)]].
    + exists log. injection Hd as <-. split; reflexivity.
    + discriminate Hd.
    + discriminate Hd.
Defined.

End WeeklyAnalysisAtTables.
